(** * StockPriceTracker: a shallow embedding of [stock_tracker.py]

    The program reads [config.json] and [data/highs.json], asks a market-data
    provider for one price per configured ticker, keeps the highest price seen
    per ticker, sends a Telegram message when a price has dropped far enough
    below that high, and writes the table of highs back when it changed.

    Modelling choices.
    - Python floats are IEEE binary64: Rocq's primitive [float], compared with
      [<?] and [<=?] exactly as Python's [<] and [<=] (every comparison with a
      NaN is false).
    - Python objects produced by [json.loads] are values of [pyval]; a JSON
      object is the list of its items in insertion order.
    - A [str] is the [string] of its UTF-8 bytes: equality and the order of
      [sorted] on such strings are those of Python on the texts.
    - The highs table, a [dict], is a [gmap string float].
    - Everything outside the repository is a field of [world]: the two
      files, the environment variables, yfinance, requests, and the library
      functions on text whose tables are not part of the program
      ([str.strip], [str.upper], the iteration over a [str], and the string
      parser of the builtin [float]). What is proved holds for whatever
      these functions are; where a property needs a fact about one of them
      (that [str.upper] changes nothing when applied twice, say), that fact
      is a hypothesis of the theorem.
    - Exceptions are values of [exn]; a computation that prints, posts or
      writes returns its outcome together with the events it produced, in
      order. *)

From Stdlib Require Import ZArith Floats Ascii String.
From stdpp Require Import gmap strings list fin_maps sorting.

Local Open Scope string_scope.
Local Open Scope list_scope.
Set Warnings "-register-all,-inexact-float".

(** ** Floats *)

Module PyFloat.

(** Truth value of a float: [bool(x)] is [x != 0.0]; a NaN is truthy and
    both zeros are falsy. *)
Definition truthy (x : float) : bool := negb (x =? 0)%float.

(** [float(n)] for a Python [int]: round to nearest, ties to even;
    [OverflowError] when the result does not fit a binary64. [None] stands
    for that error. *)
Definition of_int (n : Z) : option float :=
  match binary_normalize prec emax n 0 false with
  | S754_infinity _ => None
  | sf => Some (SF2Prim sf)
  end.

End PyFloat.

(** ** Python values, exceptions, outcomes *)

(** What [json.loads] can return. The items of a [PDict] are those of the
    dict in insertion order; their keys are distinct in a value that comes
    from [json.loads]. *)
Inductive pyval :=
| PNone
| PBool (b : bool)
| PInt (n : Z)
| PFloat (x : float)
| PStr (s : string)
| PList (l : list pyval)
| PDict (items : list (string * pyval)).

(** The exceptions the program meets. [JSONDecodeError] is a subclass of
    [ValueError]; [Exception] stands for whatever yfinance or requests raise. *)
Inductive exn :=
| ValueError (msg : string)
| JSONDecodeError
| TypeError
| OverflowError
| AttributeError
| FileNotFoundError
| Exception (what : string).

(** [isinstance(e, (TypeError, ValueError))] *)
Definition is_type_or_value_error (e : exn) : bool :=
  match e with
  | ValueError _ | JSONDecodeError | TypeError => true
  | _ => false
  end.

Inductive result (A : Type) :=
| Ok (a : A)
| Raise (e : exn).
Arguments Ok {A} a.
Arguments Raise {A} e.

#[global] Instance result_ret : MRet result := @Ok.
#[global] Instance result_bind : MBind result := fun A B f r =>
  match r with
  | Ok a => f a
  | Raise e => Raise e
  end.

(** ** The outside world *)

(** The alert text: the f-string of [main] holds these four values and a
    time stamp (which is not modelled). *)
Record message := Message {
  msg_ticker : string;
  msg_drop_percent : float;
  msg_price : float;
  msg_high : float
}.

(** A line printed to the console, with the values it is formatted from. *)
Inductive line :=
| BadHighWarning (key : string) (value : pyval)
| TelegramNotConfigured
| TelegramError (status_code : Z) (text : string)
| FetchFailed (ticker : string) (exc : exn)
| InitialHigh (ticker : string) (price : float)
| NewHigh (ticker : string) (price prev : float)
| AlertSent (ticker : string) (price high : float)
| PriceAndHigh (ticker : string) (price high : float)
| SavedHighs
| NoHighUpdates.

Inductive event :=
| Print (l : line)
| Post (url chat_id : string) (text : message)
| WriteHighs (content : pyval).

(** A JSON file on disk, read through [json.loads(path.read_text())]. *)
Inductive file :=
| Absent
| Garbled
| Json (v : pyval).

(** [requests.Response], as far as the program looks at it. *)
Module Response.
Record t := Make {
  ok : bool;
  status_code : Z;
  text : string
}.
End Response.

(** yfinance's [FastInfo] object: what [.get("last_price")] does. *)
Record fast_info := FastInfo {
  get_last_price : result (option float)
}.

(** yfinance's [Ticker] object: the [fast_info] attribute (which may raise,
    or be a falsy value, [None] here) and [history(period=...)], reduced to
    its "Close" column (which may raise too). *)
Record ticker_obj := TickerObj {
  fast_info_attr : result (option fast_info);
  history : string -> result (list float)
}.

(** The index given to the provider and to Telegram is the position of the
    ticker in the configured list, so that two fetches of one symbol may
    answer differently. *)
Record world := World {
  float_of_str : string -> option float;
  str_strip : string -> string;
  str_upper : string -> string;
  str_chars : string -> list string;
  config_json : file;
  highs_json : file;
  getenv : string -> option string;
  yf_Ticker : nat -> string -> result ticker_obj;
  requests_post : nat -> string -> string -> message -> result Response.t
}.

(** ** Computations with output *)

Definition M (A : Type) : Type := result A * list event.

#[global] Instance M_ret : MRet M := fun A a => (Ok a, []).
#[global] Instance M_bind : MBind M := fun A B f m =>
  match m.1 with
  | Ok a => ((f a).1, m.2 ++ (f a).2)
  | Raise e => (Raise e, m.2)
  end.

Definition lift {A} (r : result A) : M A := (r, []).
Definition raise {A} (e : exn) : M A := (Raise e, []).
Definition emit (e : event) : M unit := (Ok tt, [e]).
Definition print (l : line) : M unit := emit (Print l).

(** ** Builtins *)

(** [bool(s)] for a string, and for an optional one ([None] is falsy). *)
Definition str_truthy (s : string) : bool := negb (String.eqb s "").
Definition opt_truthy (s : option string) : bool :=
  match s with
  | Some s => str_truthy s
  | None => false
  end.

(** The builtin [float(v)]. *)
Definition float (w : world) (v : pyval) : result PrimFloat.float :=
  match v with
  | PFloat x => Ok x
  | PInt n =>
      match PyFloat.of_int n with
      | Some x => Ok x
      | None => Raise OverflowError
      end
  | PBool b => Ok (if b then 1 else 0)%float
  | PStr s =>
      match float_of_str w s with
      | Some x => Ok x
      | None => Raise (ValueError "could not convert string to float")
      end
  | PNone | PList _ | PDict _ => Raise TypeError
  end.

(** [d.get(key, default)] on a dict given by its items. *)
Fixpoint dict_get (key : string) (items : list (string * pyval))
    (default : pyval) : pyval :=
  match items with
  | [] => default
  | (k, v) :: rest => if String.eqb k key then v else dict_get key rest default
  end.

(** What a [for] over a value visits: the elements of a list, the characters
    of a string, the keys of a dict; anything else is not iterable. *)
Definition iter (w : world) (v : pyval) : result (list pyval) :=
  match v with
  | PList l => Ok l
  | PStr s => Ok (PStr <$> str_chars w s)
  | PDict items => Ok (PStr <$> items.*1)
  | PNone | PBool _ | PInt _ | PFloat _ => Raise TypeError
  end.

(** ** The program *)

(** The list comprehension of [load_config]:
    [[t.strip().upper() for t in xs if str(t).strip()]].
    For a [str] element, [str(t)] is [t]. For any other JSON value [str(t)]
    is a non-blank text ("None", "True", digits, "[...]", ...), so the
    element passes the filter and [t.strip()] raises [AttributeError]. *)
Fixpoint normalize_tickers (w : world) (xs : list pyval)
    : result (list string) :=
  match xs with
  | [] => Ok []
  | PStr t :: rest =>
      if str_truthy (str_strip w t)
      then tickers ← normalize_tickers w rest;
           Ok (str_upper w (str_strip w t) :: tickers)
      else normalize_tickers w rest
  | _ :: _ => Raise AttributeError
  end.

Definition load_config (w : world) (path : file)
    : result (list string * PrimFloat.float) :=
  match path with
  | Absent => Raise FileNotFoundError
  | Garbled => Raise JSONDecodeError
  | Json (PDict data) =>
      xs ← iter w (dict_get "tickers" data (PList []));
      tickers ← normalize_tickers w xs;
      match tickers with
      | [] =>
          Raise (ValueError "config.json must include a non-empty 'tickers' list.")
      | _ :: _ =>
          drop_percent ← float w (dict_get "drop_percent" data (PInt 20));
          if negb ((0 <? drop_percent) && (drop_percent <? 100))%float
          then Raise (ValueError "'drop_percent' must be between 0 and 100.")
          else Ok (tickers, drop_percent)
      end
  | Json _ => Raise AttributeError
  end.

(** One turn of the loop of [load_highs]: the assignment is kept when
    [float(value)] returns, a [TypeError] or [ValueError] is answered with a
    warning, any other exception leaves the loop. *)
Definition load_entry (w : world) (key : string) (value : pyval)
    (highs : gmap string PrimFloat.float) : M (gmap string PrimFloat.float) :=
  match float w value with
  | Ok x => mret (<[str_upper w key := x]> highs)
  | Raise e =>
      if is_type_or_value_error e
      then _ ← print (BadHighWarning key value); mret highs
      else raise e
  end.

Fixpoint load_entries (w : world) (items : list (string * pyval))
    (highs : gmap string PrimFloat.float) : M (gmap string PrimFloat.float) :=
  match items with
  | [] => mret highs
  | (key, value) :: rest =>
      highs' ← load_entry w key value highs;
      load_entries w rest highs'
  end.

Definition load_highs (w : world) (path : file)
    : M (gmap string PrimFloat.float) :=
  match path with
  | Absent => mret ∅
  | Garbled => raise JSONDecodeError
  | Json (PDict raw) => load_entries w raw ∅
  | Json _ =>
      raise (ValueError "highs.json must be a JSON object of {ticker: high}.")
  end.

(** [sorted(highs)]: the keys in ascending order. *)
Definition sorted (highs : gmap string PrimFloat.float) : list string :=
  merge_sort String.le (map_to_list highs).*1.

(** [save_highs] writes [json.dumps(ordered, indent=2) + "\n"]; the result
    is the JSON value that a later [json.loads] of the file gives back. *)
Definition save_highs (highs : gmap string PrimFloat.float) : pyval :=
  PDict (omap (fun k => (fun x => (k, PFloat x)) <$> highs !! k) (sorted highs)).

(** The historical path of [fetch_price]: the last close of a five day
    window, or a [ValueError] when the window is empty. *)
Definition from_history (ticker_obj : ticker_obj) : result PrimFloat.float :=
  closes ← history ticker_obj "5d";
  match last closes with
  | None => Raise (ValueError "No price data returned.")
  | Some close => Ok close
  end.

Definition fetch_price (w : world) (i : nat) (ticker : string)
    : result PrimFloat.float :=
  ticker_obj ← yf_Ticker w i ticker;
  let fast_info :=
    match fast_info_attr ticker_obj with
    | Ok fi => fi
    | Raise _ => None
    end in
  match fast_info with
  | Some fi =>
      last_price ← get_last_price fi;
      match last_price with
      | Some p => if PyFloat.truthy p then Ok p else from_history ticker_obj
      | None => from_history ticker_obj
      end
  | None => from_history ticker_obj
  end.

(** [requests.post(url, data={"chat_id": ..., "text": ...}, timeout=15)]:
    the call is recorded, then it returns a response or raises. *)
Definition post (w : world) (i : nat) (url chat_id : string) (text : message)
    : M Response.t :=
  _ ← emit (Post url chat_id text);
  lift (requests_post w i url chat_id text).

Definition send_telegram_message (w : world) (i : nat)
    (token chat_id : option string) (text : message) : M bool :=
  if negb (opt_truthy token) || negb (opt_truthy chat_id) then
    _ ← print TelegramNotConfigured;
    mret false
  else
    let url :=
      "https://api.telegram.org/bot" +:+ default "" token +:+ "/sendMessage" in
    response ← post w i url (default "" chat_id) text;
    _ ← (if negb (Response.ok response)
         then print (TelegramError (Response.status_code response)
                                   (Response.text response))
         else mret tt);
    mret (Response.ok response).

(** The local variables of [main] that the loop changes. *)
Record locals := Locals {
  highs : gmap string PrimFloat.float;
  updated_highs : bool
}.

(** The body of [for ticker in tickers], at position [i] of the list. *)
Definition loop_body (w : world) (drop_percent drop_factor : PrimFloat.float)
    (token chat_id : option string) (i : nat) (ticker : string) (st : locals)
    : M locals :=
  match fetch_price w i ticker with
  | Raise exc =>
      _ ← print (FetchFailed ticker exc);
      mret st
  | Ok price =>
      match highs st !! ticker with
      | None =>
          _ ← print (InitialHigh ticker price);
          mret (Locals (<[ticker := price]> (highs st)) true)
      | Some high =>
          if (high <? price)%float then
            _ ← print (NewHigh ticker price high);
            mret (Locals (<[ticker := price]> (highs st)) true)
          else
            let threshold := (high * drop_factor)%float in
            if (price <=? threshold)%float then
              let message := Message ticker drop_percent price high in
              _ ← send_telegram_message w i token chat_id message;
              _ ← print (AlertSent ticker price high);
              mret st
            else
              _ ← print (PriceAndHigh ticker price high);
              mret st
      end
  end.

Fixpoint for_tickers (w : world) (drop_percent drop_factor : PrimFloat.float)
    (token chat_id : option string) (i : nat) (tickers : list string)
    (st : locals) : M locals :=
  match tickers with
  | [] => mret st
  | ticker :: rest =>
      st' ← loop_body w drop_percent drop_factor token chat_id i ticker st;
      for_tickers w drop_percent drop_factor token chat_id (S i) rest st'
  end.

(** The end of [main]: persist the table when the flag is set. *)
Definition finish (st : locals) : M unit :=
  if updated_highs st then
    _ ← emit (WriteHighs (save_highs (highs st)));
    print SavedHighs
  else
    print NoHighUpdates.

Definition main (w : world) : M unit :=
  '(tickers, drop_percent) ← lift (load_config w (config_json w));
  highs ← load_highs w (highs_json w);
  let drop_factor := (1 - drop_percent / 100)%float in
  let token := getenv w "TELEGRAM_BOT_TOKEN" in
  let chat_id := getenv w "TELEGRAM_CHAT_ID" in
  st ← for_tickers w drop_percent drop_factor token chat_id 0 tickers
         (Locals highs false);
  finish st.

(** ** Sample worlds

    Concrete surroundings on which the program is run below. *)

Module Sample.

(** Stand-ins for [str.strip], [str.upper] and the iteration over a [str].
    They are those functions on ASCII text, which is all the sample worlds
    hold; on other text they are not Python's. *)

(** White space of the ASCII range: tab to carriage return, the four
    separators 28 to 31, and the space. *)
Definition is_space (c : ascii) : bool :=
  let n := N_of_ascii c in
  ((9 <=? n) && (n <=? 13) || (28 <=? n) && (n <=? 32))%N.

Fixpoint lstrip (s : string) : string :=
  match s with
  | String c s' => if is_space c then lstrip s' else s
  | EmptyString => EmptyString
  end.

Definition strip (s : string) : string :=
  String.rev (lstrip (String.rev (lstrip s))).

Definition upper_ascii (c : ascii) : ascii :=
  let n := N_of_ascii c in
  if ((97 <=? n) && (n <=? 122))%N then ascii_of_N (n - 32) else c.

Fixpoint upper (s : string) : string :=
  match s with
  | String c s' => String (upper_ascii c) (upper s')
  | EmptyString => EmptyString
  end.

Fixpoint chars (s : string) : list string :=
  match s with
  | String c s' => String c EmptyString :: chars s'
  | EmptyString => []
  end.

(** A stand-in for the string parser of [float]: it knows a few literals
    and refuses everything else. *)
Definition parse (s : string) : option PrimFloat.float :=
  if String.eqb s "12.5" then Some 12.5%float
  else if String.eqb s "nan" then Some nan
  else if String.eqb s "-inf" then Some neg_infinity
  else None.

(** A ticker whose fast quote is [p]. *)
Definition quoted (p : PrimFloat.float) : result ticker_obj :=
  Ok (TickerObj (Ok (Some (FastInfo (Ok (Some p))))) (fun _ => Ok [])).

(** A ticker without fast quote whose recent closes are [closes]. *)
Definition closed (closes : list PrimFloat.float) : result ticker_obj :=
  Ok (TickerObj (Ok None) (fun _ => Ok closes)).

(** A ticker whose fast-info object is there, whose [last_price] lookup
    raises, and whose recent closes are [closes]. *)
Definition broken_quote (closes : list PrimFloat.float) : result ticker_obj :=
  Ok (TickerObj (Ok (Some (FastInfo (Raise (Exception "quote lookup failed")))))
                (fun _ => Ok closes)).

Definition no_env (name : string) : option string := None.

Definition telegram_env (name : string) : option string :=
  if String.eqb name "TELEGRAM_BOT_TOKEN" then Some "TOKEN"
  else if String.eqb name "TELEGRAM_CHAT_ID" then Some "42"
  else None.

Definition accepted (i : nat) (url chat_id : string) (text : message)
    : result Response.t :=
  Ok (Response.Make true 200 "ok").

Definition refused (i : nat) (url chat_id : string) (text : message)
    : result Response.t :=
  Ok (Response.Make false 403 "Forbidden").

Definition unreachable (i : nat) (url chat_id : string) (text : message)
    : result Response.t :=
  Raise (Exception "ConnectionError").

Definition config (tickers : list string) (drop_percent : Z) : file :=
  Json (PDict [("tickers", PList (PStr <$> tickers));
               ("drop_percent", PInt drop_percent)]).

(** AAA is configured twice; its stored high is 100, the first fetch gives
    110 and the second 80. *)
Definition twice : world :=
  World parse strip upper chars (config ["AAA"; "AAA"] 20) (Json (PDict [("AAA", PInt 100)]))
    telegram_env
    (fun i _ => match i with 0 => quoted 110 | _ => quoted 80 end)
    accepted.

(** AAA rises from 100 to 110, BBB is met for the first time, CCC has
    fallen from 50 to 30 and Telegram cannot be reached. *)
Definition telegram_down : world :=
  World parse strip upper chars (config ["AAA"; "BBB"; "CCC"] 20)
    (Json (PDict [("AAA", PInt 100); ("CCC", PInt 50)]))
    telegram_env
    (fun i _ => match i with 0 => quoted 110 | 1 => quoted 7 | _ => quoted 30 end)
    unreachable.

(** The same day with Telegram answering. *)
Definition telegram_up : world :=
  World parse strip upper chars (config ["AAA"; "BBB"; "CCC"] 20)
    (Json (PDict [("AAA", PInt 100); ("CCC", PInt 50)]))
    telegram_env
    (fun i _ => match i with 0 => quoted 110 | 1 => quoted 7 | _ => quoted 30 end)
    accepted.

(** AAA stands at its threshold: high 100, drop 20 percent, price 80. *)
Definition at_threshold : world :=
  World parse strip upper chars (config ["AAA"] 20) (Json (PDict [("AAA", PInt 100)]))
    no_env (fun _ _ => quoted 80) accepted.

(** A ticker whose [fast_info] attribute raises and whose recent closes
    are [closes]. *)
Definition no_fast_info (closes : list PrimFloat.float) : result ticker_obj :=
  Ok (TickerObj (Raise (Exception "fast_info failed")) (fun _ => Ok closes)).

(** AAA is new; the provider has closes 1.0 and 2.0 for it, and reading
    [last_price] from its fast-info object raises. *)
Definition quote_lookup_fails : world :=
  World parse strip upper chars (config ["AAA"] 20) Absent no_env
    (fun _ _ => broken_quote [1; 2]%float) accepted.

(** The same with the [fast_info] attribute itself raising. *)
Definition fast_info_fails : world :=
  World parse strip upper chars (config ["AAA"] 20) Absent no_env
    (fun _ _ => no_fast_info [1; 2]%float) accepted.

End Sample.

(** ** Reading the output of a run *)

(** Every call of [send_telegram_message] starts with one of two events:
    the "not configured" line, or the POST. *)
Definition is_alert_attempt (e : event) : bool :=
  match e with
  | Print TelegramNotConfigured | Post _ _ _ => true
  | _ => false
  end.

(** [send_telegram_message] was called. *)
Definition alert_attempted (out : list event) : bool :=
  existsb is_alert_attempt out.

(** An alert for ticker [t]: a POST whose text names [t], or the line that
    follows the alert. *)
Definition is_alert_for (t : string) (e : event) : bool :=
  match e with
  | Post _ _ m => String.eqb (msg_ticker m) t
  | Print (AlertSent t' _ _) => String.eqb t' t
  | _ => false
  end.

(** The high of ticker [t] was set or raised. *)
Definition is_high_change_for (t : string) (e : event) : bool :=
  match e with
  | Print (InitialHigh t' _) | Print (NewHigh t' _ _) => String.eqb t' t
  | _ => false
  end.

(** The high of some ticker was set or raised. *)
Definition is_high_change (e : event) : bool :=
  match e with
  | Print (InitialHigh _ _) | Print (NewHigh _ _ _) => true
  | _ => false
  end.

(** The highs file was written. *)
Definition is_write (e : event) : bool :=
  match e with
  | WriteHighs _ => true
  | _ => false
  end.

(** The ticker an event of the loop is about, when it names one. *)
Definition event_ticker (e : event) : option string :=
  match e with
  | Post _ _ m => Some (msg_ticker m)
  | Print (FetchFailed t _) | Print (InitialHigh t _) | Print (NewHigh t _ _)
  | Print (AlertSent t _ _) | Print (PriceAndHigh t _ _) => Some t
  | _ => None
  end.

(** ** Vocabulary of the statements *)

(** The output tells that the high of [t] was set or raised. *)
Definition high_changed_for (t : string) (out : list event) : bool :=
  existsb (is_high_change_for t) out.

(** The output tells of an alert for [t]. *)
Definition alerted_for (t : string) (out : list event) : bool :=
  existsb (is_alert_for t) out.

(** What [send_telegram_message] can print or post. *)
Definition send_event (text : message) (e : event) : Prop :=
  e = Print TelegramNotConfigured
  \/ (exists url chat_id, e = Post url chat_id text)
  \/ (exists code body, e = Print (TelegramError code body)).

(** The four ways a turn of the loop can go once the price is known. *)
Inductive turn (w : world) (drop_percent drop_factor : PrimFloat.float)
    (token chat_id : option string) (i : nat) (ticker : string) (st : locals)
    : M locals -> Prop :=
| turn_failed exc :
    fetch_price w i ticker = Raise exc ->
    turn w drop_percent drop_factor token chat_id i ticker st
      (Ok st, [Print (FetchFailed ticker exc)])
| turn_initial price :
    fetch_price w i ticker = Ok price ->
    highs st !! ticker = None ->
    turn w drop_percent drop_factor token chat_id i ticker st
      (Ok (Locals (<[ticker := price]> (highs st)) true),
       [Print (InitialHigh ticker price)])
| turn_new_high price high :
    fetch_price w i ticker = Ok price ->
    highs st !! ticker = Some high ->
    (high <? price)%float = true ->
    turn w drop_percent drop_factor token chat_id i ticker st
      (Ok (Locals (<[ticker := price]> (highs st)) true),
       [Print (NewHigh ticker price high)])
| turn_alert price high :
    fetch_price w i ticker = Ok price ->
    highs st !! ticker = Some high ->
    (high <? price)%float = false ->
    (price <=? high * drop_factor)%float = true ->
    turn w drop_percent drop_factor token chat_id i ticker st
      (_ ← send_telegram_message w i token chat_id
             (Message ticker drop_percent price high);
       _ ← print (AlertSent ticker price high);
       mret st)
| turn_steady price high :
    fetch_price w i ticker = Ok price ->
    highs st !! ticker = Some high ->
    (high <? price)%float = false ->
    (price <=? high * drop_factor)%float = false ->
    turn w drop_percent drop_factor token chat_id i ticker st
      (Ok st, [Print (PriceAndHigh ticker price high)]).

(** [y] is [x] itself or strictly above it. *)
Definition high_le (x y : PrimFloat.float) : Prop :=
  y = x \/ (x <? y)%float = true.

(** Every ticker of [h] is in [h'], with the same high or a greater one. *)
Definition highs_le (h h' : gmap string PrimFloat.float) : Prop :=
  forall t x, h !! t = Some x -> exists y, h' !! t = Some y /\ high_le x y.

(** How a turn of the loop that returns leaves the locals: untouched, or
    with the fetched price stored for a ticker that had no high or a
    strictly lower one, and the flag set. *)
Definition turn_effect (w : world) (i : nat) (ticker : string)
    (st st' : locals) : Prop :=
  st' = st
  \/ exists price,
       fetch_price w i ticker = Ok price
       /\ st' = Locals (<[ticker := price]> (highs st)) true
       /\ (highs st !! ticker = None
           \/ exists high,
                highs st !! ticker = Some high /\ (high <? price)%float = true).

(** [save_highs] was called. *)
Definition wrote (out : list event) : bool := existsb is_write out.

(** [h'] is above [h] and differs from it at some ticker. *)
Definition strictly_above (h h' : gmap string PrimFloat.float) : Prop :=
  highs_le h h'
  /\ exists t,
       (h !! t = None /\ is_Some (h' !! t))
       \/ (exists x y, h !! t = Some x /\ h' !! t = Some y
                       /\ (x <? y)%float = true).

(** The state of the dirty flag after some turns: nothing happened, or the
    flag is set, the table is strictly above the earlier one and a line
    about a changed high was printed. *)
Definition flag_tracks (st st' : locals) (out : list event) : Prop :=
  (st' = st /\ existsb is_high_change out = false)
  \/ (updated_highs st' = true
      /\ strictly_above (highs st) (highs st')
      /\ existsb is_high_change out = true).


(** The entries of a highs file that [float] converts, with the key in
    upper case. *)
Definition converted (w : world) (items : list (string * pyval))
    : list (string * PrimFloat.float) :=
  omap (fun '(key, value) =>
          match float w value with
          | Ok x => Some (str_upper w key, x)
          | Raise _ => None
          end) items.

(** The warnings for the entries that [float] refuses. *)
Definition warnings (w : world) (items : list (string * pyval)) : list event :=
  omap (fun '(key, value) =>
          match float w value with
          | Ok _ => None
          | Raise _ => Some (Print (BadHighWarning key value))
          end) items.

(** No value of the file makes [float] raise anything but a [TypeError] or
    a [ValueError]: no integer is too large for a float. *)
Definition no_overflow (w : world) (items : list (string * pyval)) : Prop :=
  Forall (fun '(_, value) =>
            forall e, float w value = Raise e -> is_type_or_value_error e = true)
    items.

(** The keys of a table are tickers in their normal form: [str.upper]
    leaves them as they are. *)
Definition well_formed (w : world) (m : gmap string PrimFloat.float) : Prop :=
  map_Forall (fun k _ => str_upper w k = k) m.

(** The items [save_highs] writes, before their values are wrapped. *)
Definition ordered (m : gmap string PrimFloat.float)
    : list (string * PrimFloat.float) :=
  omap (fun k => (fun x => (k, x)) <$> m !! k) (sorted m).

(** ** Facts about float comparison *)

Module PyFloatFacts.

Lemma SFltb_irrefl (a : spec_float) : SFltb a a = false.
Proof.
  unfold SFltb, SFcompare.
  destruct a as [s|s| |s m e]; try (destruct s; reflexivity); try reflexivity.
  rewrite Z.compare_refl, Pos.compare_cont_refl. destruct s; reflexivity.
Qed.

Lemma SFltb_trans (a b c : spec_float) :
  SFltb a b = true -> SFltb b c = true -> SFltb a c = true.
Proof.
  unfold SFltb, SFcompare.
  destruct a as [sa|sa| |sa ma ea], b as [sb|sb| |sb mb eb],
           c as [sc|sc| |sc mc ec];
    try discriminate; try (destruct sa, sb, sc; simpl; congruence).
  destruct sa, sb, sc; try congruence;
    fold (Pos.compare ma mb); fold (Pos.compare mb mc);
    fold (Pos.compare ma mc);
    destruct (Z.compare_spec ea eb), (Z.compare_spec eb ec),
             (Z.compare_spec ea ec);
      try congruence; try lia; subst;
    destruct (Pos.compare_spec ma mb), (Pos.compare_spec mb mc),
             (Pos.compare_spec ma mc);
      simpl; try congruence; try lia.
Qed.

Lemma ltb_irrefl (x : PrimFloat.float) : (x <? x)%float = false.
Proof. rewrite FloatAxioms.ltb_spec. apply SFltb_irrefl. Qed.

Lemma ltb_trans (x y z : PrimFloat.float) :
  (x <? y)%float = true -> (y <? z)%float = true -> (x <? z)%float = true.
Proof. rewrite !FloatAxioms.ltb_spec. apply SFltb_trans. Qed.

Lemma ltb_leb (x y : PrimFloat.float) :
  (x <? y)%float = true -> (x <=? y)%float = true.
Proof.
  rewrite FloatAxioms.ltb_spec, FloatAxioms.leb_spec. unfold SFltb, SFleb.
  destruct (SFcompare _ _) as [[]|]; congruence.
Qed.

Lemma leb_refl (x : PrimFloat.float) : is_nan x = false -> (x <=? x)%float = true.
Proof.
  unfold is_nan. rewrite FloatAxioms.eqb_spec, FloatAxioms.leb_spec.
  unfold SFeqb, SFleb.
  destruct (SFcompare _ _) as [[]|]; simpl; congruence.
Qed.

Lemma ltb_neq (x y : PrimFloat.float) : (x <? y)%float = true -> x <> y.
Proof. intros H ->. rewrite ltb_irrefl in H. discriminate. Qed.

End PyFloatFacts.

(** ** Laws of the output monad *)

Section Monad.
Context {A B : Type}.
Implicit Types (m : M A) (f : A -> M B).

Lemma bind_ok (a : A) (out : list event) f :
  ((Ok a, out) : M A) ≫= f = ((f a).1, out ++ (f a).2).
Proof. reflexivity. Qed.

Lemma bind_raise (e : exn) (out : list event) f :
  ((Raise e, out) : M A) ≫= f = (Raise e, out).
Proof. reflexivity. Qed.

Lemma bind_out m f :
  (m ≫= f).2 = m.2 ++ match m.1 with Ok a => (f a).2 | Raise _ => [] end.
Proof.
  destruct m as [[a|e] out]; simpl; [reflexivity|].
  now rewrite app_nil_r.
Qed.

Lemma bind_inv_ok m f (b : B) (out : list event) :
  m ≫= f = (Ok b, out) ->
  exists a out1 out2,
    m = (Ok a, out1) /\ f a = (Ok b, out2) /\ out = out1 ++ out2.
Proof.
  destruct m as [[a|e] out1]; [|discriminate].
  rewrite bind_ok. destruct (f a) as [r out2] eqn:Hf. simpl.
  intros [= -> <-]. now exists a, out1, out2.
Qed.
End Monad.

(** ** The alert threshold *)

Lemma send_attempts (w : world) (i : nat) (token chat_id : option string)
    (text : message) :
  alert_attempted (send_telegram_message w i token chat_id text).2 = true.
Proof.
  unfold send_telegram_message.
  destruct (negb (opt_truthy token) || negb (opt_truthy chat_id)).
  - reflexivity.
  - rewrite bind_out. unfold post. rewrite bind_out. reflexivity.
Qed.

(** C1. In a turn of the loop where the ticker has a recorded high and the
    fetched price is not above it, an alert is attempted exactly when
    [price <= high * (1 - drop_percent / 100)], the bound included. With a
    high of 100 and a drop of 20 percent the threshold is 80.0: a price of
    80.0 alerts and a price of 80.01 does not. *)
Theorem alert_iff_price_le_threshold (w : world)
    (drop_percent : PrimFloat.float) (token chat_id : option string)
    (i : nat) (ticker : string) (st : locals) (price high : PrimFloat.float) :
  fetch_price w i ticker = Ok price ->
  highs st !! ticker = Some high ->
  (high <? price)%float = false ->
  let drop_factor := (1 - drop_percent / 100)%float in
  let out :=
    (loop_body w drop_percent drop_factor token chat_id i ticker st).2 in
  (alert_attempted out = true <->
     (price <=? high * (1 - drop_percent / 100))%float = true)
  /\ (high = 100%float -> drop_percent = 20%float ->
      (high * (1 - drop_percent / 100) = 80)%float
      /\ (price = 80%float -> alert_attempted out = true)
      /\ (price = 80.01%float -> alert_attempted out = false)).
Proof.
  intros Hfetch Hhigh Hnot drop_factor out.
  assert (Hout : alert_attempted out
                 = (price <=? high * (1 - drop_percent / 100))%float).
  { unfold out, loop_body. rewrite Hfetch, Hhigh, Hnot.
    fold drop_factor.
    destruct (price <=? high * drop_factor)%float.
    - rewrite bind_out. unfold alert_attempted. rewrite existsb_app.
      fold (alert_attempted (send_telegram_message w i token chat_id
              (Message ticker drop_percent price high)).2).
      now rewrite send_attempts.
    - reflexivity. }
  split.
  - now rewrite Hout.
  - intros -> ->. split; [reflexivity|].
    rewrite Hout. split; intros ->; reflexivity.
Qed.

Lemma alert_iff_price_le_threshold_witness :
  let w := Sample.at_threshold in
  let st := Locals {[ "AAA" := 100%float ]} false in
  let out := (loop_body w 20 (1 - 20 / 100) None None 0 "AAA" st).2 in
  fetch_price w 0 "AAA" = Ok 80%float
  /\ alert_attempted out = true
  /\ (100 * (1 - 20 / 100) = 80)%float.
Proof.
  split; [reflexivity|].
  pose proof (alert_iff_price_le_threshold Sample.at_threshold 20 None None 0
                "AAA" (Locals {[ "AAA" := 100%float ]} false) 80 100
                eq_refl eq_refl eq_refl) as [_ H].
  destruct (H eq_refl eq_refl) as (Hthr & Hat & _).
  split; [exact (Hat eq_refl) | exact Hthr].
Defined.

(** ** One turn of the loop *)

Lemma send_events (w : world) (i : nat) (token chat_id : option string)
    (text : message) :
  Forall (send_event text) (send_telegram_message w i token chat_id text).2.
Proof.
  unfold send_telegram_message, post, send_event.
  destruct (negb (opt_truthy token) || negb (opt_truthy chat_id)).
  - apply List.Forall_cons; [now left | apply List.Forall_nil].
  - destruct (requests_post w i _ _ text) as [[[] code body]|e]; cbn;
      repeat (apply List.Forall_cons; [eauto 6|]); apply List.Forall_nil.
Qed.

Lemma loop_body_turn w drop_percent drop_factor token chat_id i ticker st :
  turn w drop_percent drop_factor token chat_id i ticker st
    (loop_body w drop_percent drop_factor token chat_id i ticker st).
Proof.
  unfold loop_body.
  destruct (fetch_price w i ticker) as [price|exc] eqn:Hfetch.
  - destruct (highs st !! ticker) as [high|] eqn:Hhigh.
    + destruct (high <? price)%float eqn:Hlt.
      * now apply turn_new_high.
      * destruct (price <=? high * drop_factor)%float eqn:Hle.
        -- now apply turn_alert with (price := price) (high := high).
        -- now apply turn_steady.
    + now apply turn_initial.
  - now apply turn_failed.
Qed.

(** The output of the alert branch, event by event. *)
Lemma alert_branch_events w i token chat_id ticker dp price high st :
  Forall (fun e => send_event (Message ticker dp price high) e
                   \/ e = Print (AlertSent ticker price high))
    (_ ← send_telegram_message w i token chat_id (Message ticker dp price high);
     _ ← print (AlertSent ticker price high);
     (mret st : M locals)).2.
Proof.
  rewrite bind_out. apply Forall_app. split.
  - eapply Forall_impl; [apply send_events|]. auto.
  - destruct (send_telegram_message _ _ _ _ _).1; cbn;
      [apply List.Forall_cons; [now right|] |]; apply List.Forall_nil.
Qed.

Lemma alert_branch_state w i token chat_id text l st st' out :
  (_ ← send_telegram_message w i token chat_id text;
   _ ← print l;
   (mret st : M locals)) = (Ok st', out) ->
  st' = st.
Proof.
  intros H. apply bind_inv_ok in H as (? & ? & ? & _ & H & _).
  now injection H.
Qed.

(** A turn for [ticker] speaks of no other ticker. *)
Lemma loop_body_tickers w dp df token chat_id i ticker st :
  Forall (fun e => forall t, event_ticker e = Some t -> t = ticker)
    (loop_body w dp df token chat_id i ticker st).2.
Proof.
  destruct (loop_body_turn w dp df token chat_id i ticker st);
    try (apply List.Forall_cons; [cbn; congruence | apply List.Forall_nil]).
  eapply Forall_impl; [apply alert_branch_events|].
  intros e [[->|[(? & ? & ->)|(? & ? & ->)]]| ->] t; cbn; congruence.
Qed.

(** A turn that sets or raises a high attempts no alert. *)
Lemma loop_body_change_or_alert w dp df token chat_id i ticker st t :
  let out := (loop_body w dp df token chat_id i ticker st).2 in
  existsb is_high_change out = true ->
  alert_attempted out = false /\ alerted_for t out = false.
Proof.
  cbn zeta.
  destruct (loop_body_turn w dp df token chat_id i ticker st);
    try (cbn; intros; (discriminate || (split; reflexivity))).
  intros Hex. apply existsb_exists in Hex as (e & He & Hc).
  pose proof (alert_branch_events w i token chat_id ticker dp price high st)
    as Hall.
  rewrite Forall_forall in Hall. apply list_elem_of_In in He.
  destruct (Hall e He) as [[->|[(? & ? & ->)|(? & ? & ->)]]| ->];
    discriminate.
Qed.

(** Every call of [send_telegram_message] in the loop leaves a trace that
    names the ticker: the POST when Telegram is configured, the line
    printed after the alert when it is not. *)
Lemma alert_turn_names_ticker w dp df token chat_id i ticker st price high :
  fetch_price w i ticker = Ok price ->
  highs st !! ticker = Some high ->
  (high <? price)%float = false ->
  (price <=? high * df)%float = true ->
  alerted_for ticker (loop_body w dp df token chat_id i ticker st).2 = true.
Proof.
  intros Hf Hh Hlt Hle. unfold loop_body. rewrite Hf, Hh, Hlt, Hle.
  unfold alerted_for, send_telegram_message, post.
  destruct (negb (opt_truthy token) || negb (opt_truthy chat_id)).
  - cbn. now rewrite String.eqb_refl.
  - rewrite !bind_out. cbn. now rewrite String.eqb_refl.
Qed.

(** ** The whole loop *)

Lemma for_tickers_cons w dp df token chat_id i ticker rest st :
  for_tickers w dp df token chat_id i (ticker :: rest) st
  = (st' ← loop_body w dp df token chat_id i ticker st;
     for_tickers w dp df token chat_id (S i) rest st').
Proof. reflexivity. Qed.

(** The loop speaks only of configured tickers. *)
Lemma for_tickers_tickers w dp df token chat_id tickers :
  forall i st,
    Forall (fun e => forall t, event_ticker e = Some t -> t ∈ tickers)
      (for_tickers w dp df token chat_id i tickers st).2.
Proof.
  induction tickers as [|ticker rest IH]; intros i st.
  - apply List.Forall_nil.
  - rewrite for_tickers_cons, bind_out. apply Forall_app. split.
    + eapply Forall_impl; [apply loop_body_tickers|].
      intros e He t Ht. rewrite (He t Ht). left.
    + destruct (loop_body _ _ _ _ _ _ _ _).1 as [st'|]; [|apply List.Forall_nil].
      eapply Forall_impl; [apply IH|].
      intros e He t Ht. right. now apply He.
Qed.

Lemma high_change_for_ticker t e :
  is_high_change_for t e = true -> event_ticker e = Some t /\ is_high_change e = true.
Proof.
  destruct e as [[]| |]; cbn; try discriminate;
    intros ->%String.eqb_eq; auto.
Qed.

Lemma alert_for_ticker t e :
  is_alert_for t e = true -> event_ticker e = Some t.
Proof.
  destruct e as [[]| |]; cbn; try discriminate;
    now intros ->%String.eqb_eq.
Qed.

Lemma not_mentioned (t : string) (out : list event) :
  Forall (fun e => event_ticker e <> Some t) out ->
  high_changed_for t out = false /\ alerted_for t out = false.
Proof.
  intros Hall. rewrite Forall_forall in Hall.
  split; apply not_true_is_false; intros (e & He & Hc)%existsb_exists;
    apply list_elem_of_In in He; apply (Hall e He).
  - now apply high_change_for_ticker.
  - now apply alert_for_ticker.
Qed.

(** When no ticker is configured twice, the loop never both changes the
    high of a ticker and alerts for it. *)
Lemma for_tickers_change_or_alert w dp df token chat_id tickers t :
  NoDup tickers ->
  forall i st,
    let out := (for_tickers w dp df token chat_id i tickers st).2 in
    high_changed_for t out = true -> alerted_for t out = false.
Proof.
  induction 1 as [|ticker rest Hnotin Hnodup IH]; intros i st; cbn zeta.
  - discriminate.
  - rewrite for_tickers_cons, bind_out.
    unfold high_changed_for, alerted_for. rewrite !existsb_app.
    set (out1 := (loop_body w dp df token chat_id i ticker st).2).
    set (out2 := match (loop_body w dp df token chat_id i ticker st).1 with
                 | Ok st' => (for_tickers w dp df token chat_id (S i) rest st').2
                 | Raise _ => []
                 end).
    destruct (decide (t = ticker)) as [->|Hne].
    + (* every event about [ticker] comes from this turn *)
      assert (H2 : high_changed_for ticker out2 = false
                   /\ alerted_for ticker out2 = false).
      { apply not_mentioned. unfold out2.
        destruct (loop_body _ _ _ _ _ _ _ _).1 as [st'|]; [|apply List.Forall_nil].
        eapply Forall_impl;
          [apply (for_tickers_tickers w dp df token chat_id rest)|].
        intros e He Heq. apply Hnotin. now apply He. }
      destruct H2 as [H2c H2a]. unfold high_changed_for, alerted_for in H2c, H2a.
      rewrite H2c, H2a, !orb_false_r. intros Hc.
      apply (loop_body_change_or_alert w dp df token chat_id i ticker st ticker).
      apply existsb_exists in Hc as (e & He & Hc).
      apply existsb_exists. exists e. split; [exact He|].
      now apply high_change_for_ticker in Hc.
    + (* this turn says nothing about [t] *)
      assert (H1 : high_changed_for t out1 = false /\ alerted_for t out1 = false).
      { apply not_mentioned. eapply Forall_impl; [apply loop_body_tickers|].
        intros e He Heq. apply Hne. now apply He. }
      destruct H1 as [H1c H1a]. unfold high_changed_for, alerted_for in H1c, H1a.
      rewrite H1c, H1a. cbn. unfold out2.
      destruct (loop_body _ _ _ _ _ _ _ _).1 as [st'|]; [|discriminate].
      apply IH.
Qed.

(** C2, as amended. When the fetch succeeds and the ticker has no recorded
    high, the price becomes its high; when the price is strictly above the
    recorded high, the high is set to the price; in both cases the turn
    prints one line and evaluates no alert, whatever the drop percent. A
    turn of the loop never both changes a high and attempts an alert, and
    when no ticker is configured twice neither does the whole loop. *)
Theorem new_high_precedes_alert (w : world)
    (drop_percent drop_factor : PrimFloat.float)
    (token chat_id : option string) (i : nat) (ticker : string) (st : locals)
    (price : PrimFloat.float) :
  fetch_price w i ticker = Ok price ->
  let turn_of := loop_body w drop_percent drop_factor token chat_id i ticker st in
  (highs st !! ticker = None ->
     turn_of = (Ok (Locals (<[ticker := price]> (highs st)) true),
                [Print (InitialHigh ticker price)]))
  /\ (forall high,
        highs st !! ticker = Some high -> (high <? price)%float = true ->
        turn_of = (Ok (Locals (<[ticker := price]> (highs st)) true),
                   [Print (NewHigh ticker price high)]))
  /\ (existsb is_high_change turn_of.2 = true ->
        alert_attempted turn_of.2 = false)
  /\ (forall tickers j st0 t,
        NoDup tickers ->
        let out :=
          (for_tickers w drop_percent drop_factor token chat_id j tickers st0).2 in
        high_changed_for t out = true -> alerted_for t out = false).
Proof.
  intros Hfetch turn_of. repeat split.
  - intros Hnone. unfold turn_of, loop_body. now rewrite Hfetch, Hnone.
  - intros high Hhigh Hlt. unfold turn_of, loop_body.
    now rewrite Hfetch, Hhigh, Hlt.
  - intros Hc.
    now apply (loop_body_change_or_alert w drop_percent drop_factor token
                 chat_id i ticker st ticker).
  - intros tickers j st0 t Hnodup. now apply for_tickers_change_or_alert.
Qed.

Lemma new_high_precedes_alert_witness :
  let w := Sample.telegram_up in
  let st := Locals {[ "AAA" := 100%float ]} false in
  fetch_price w 0 "AAA" = Ok 110%float
  /\ loop_body w 20 (1 - 20 / 100) None None 0 "AAA" st
     = (Ok (Locals (<["AAA" := 110%float]> {[ "AAA" := 100%float ]}) true),
        [Print (NewHigh "AAA" 110 100)]).
Proof.
  split; [reflexivity|].
  pose proof (new_high_precedes_alert Sample.telegram_up 20 (1 - 20 / 100)
                None None 0 "AAA" (Locals {[ "AAA" := 100%float ]} false) 110
                eq_refl) as (_ & H & _).
  exact (H 100%float eq_refl eq_refl).
Defined.

(** C2, as first stated, fails for a ticker that is configured twice: in
    one run AAA goes from 100 to 110 at its first turn and alerts at 80 at
    its second. *)
Lemma raise_then_alert_same_run :
  let out := (main Sample.twice).2 in
  high_changed_for "AAA" out = true /\ alerted_for "AAA" out = true.
Proof. split; vm_compute; reflexivity. Qed.

(** ** Highs only go up *)

Lemma high_le_trans x y z : high_le x y -> high_le y z -> high_le x z.
Proof.
  intros [->|Hxy] [->|Hyz]; unfold high_le; auto.
  right. eapply PyFloatFacts.ltb_trans; eassumption.
Qed.

Lemma highs_le_refl h : highs_le h h.
Proof. intros t x Hx. exists x. split; [exact Hx | now left]. Qed.

Lemma highs_le_trans h1 h2 h3 :
  highs_le h1 h2 -> highs_le h2 h3 -> highs_le h1 h3.
Proof.
  intros H12 H23 t x Hx.
  destruct (H12 t x Hx) as (y & Hy & Hxy).
  destruct (H23 t y Hy) as (z & Hz & Hyz).
  exists z. split; [exact Hz | eapply high_le_trans; eassumption].
Qed.

Lemma loop_body_effect w dp df token chat_id i ticker st st' out :
  loop_body w dp df token chat_id i ticker st = (Ok st', out) ->
  turn_effect w i ticker st st'.
Proof.
  destruct (loop_body_turn w dp df token chat_id i ticker st) as
    [exc Hf|price Hf Hh|price high Hf Hh Hlt|price high Hf Hh Hlt Hle
    |price high Hf Hh Hlt Hle].
  - intros [= <- _]. now left.
  - intros [= <- _]. right. exists price. auto.
  - intros [= <- _]. right. exists price. eauto 6.
  - intros ->%alert_branch_state. now left.
  - intros [= <- _]. now left.
Qed.

Lemma turn_effect_le w i ticker st st' :
  turn_effect w i ticker st st' -> highs_le (highs st) (highs st').
Proof.
  intros [->|(price & _ & -> & Hcase)]; [apply highs_le_refl|].
  intros t x Hx. cbn. destruct (decide (ticker = t)) as [->|Hne].
  - exists price. rewrite lookup_insert_eq. split; [reflexivity|].
    destruct Hcase as [Hnone|(high & Hhigh & Hlt)]; [congruence|].
    right. congruence.
  - exists x. rewrite lookup_insert_ne by exact Hne.
    split; [exact Hx | now left].
Qed.

Lemma for_tickers_le w dp df token chat_id tickers :
  forall i st st' out,
    for_tickers w dp df token chat_id i tickers st = (Ok st', out) ->
    highs_le (highs st) (highs st').
Proof.
  induction tickers as [|ticker rest IH]; intros i st st' out.
  - intros [= <- _]. apply highs_le_refl.
  - rewrite for_tickers_cons.
    intros (st1 & out1 & out2 & H1 & H2 & _)%bind_inv_ok.
    eapply highs_le_trans.
    + eapply turn_effect_le, loop_body_effect, H1.
    + eapply IH, H2.
Qed.

Lemma high_le_facts x y :
  high_le x y ->
  (y <? x)%float = false /\ (is_nan x = false -> (x <=? y)%float = true).
Proof.
  intros [->|Hlt]; split.
  - apply PyFloatFacts.ltb_irrefl.
  - apply PyFloatFacts.leb_refl.
  - apply not_true_is_false. intros Hgt.
    pose proof (PyFloatFacts.ltb_trans _ _ _ Hlt Hgt) as Hxx.
    rewrite PyFloatFacts.ltb_irrefl in Hxx. discriminate.
  - intros _. now apply PyFloatFacts.ltb_leb.
Qed.

(** C3. A turn of the loop changes the table only by storing the fetched
    price for a ticker that had no entry or a strictly lower one. Hence a
    ticker that has a high before the loop has one after it, and that one
    is the same value or a strictly greater one: it is never below the
    earlier value, and it is [>=] the earlier value (for a stored value
    that is a number). *)
Theorem highs_never_decrease (w : world)
    (drop_percent drop_factor : PrimFloat.float)
    (token chat_id : option string) (i : nat) (tickers : list string)
    (st st' : locals) (out : list event) :
  for_tickers w drop_percent drop_factor token chat_id i tickers st
    = (Ok st', out) ->
  (forall t x,
     highs st !! t = Some x ->
     exists y,
       highs st' !! t = Some y
       /\ (y = x \/ (x <? y)%float = true)
       /\ (y <? x)%float = false
       /\ (is_nan x = false -> (x <=? y)%float = true))
  /\ (forall j ticker s s' o,
        loop_body w drop_percent drop_factor token chat_id j ticker s
          = (Ok s', o) ->
        turn_effect w j ticker s s').
Proof.
  intros Hrun. split.
  - intros t x Hx.
    destruct (for_tickers_le _ _ _ _ _ _ _ _ _ _ Hrun t x Hx) as (y & Hy & Hle).
    exists y. split; [exact Hy|]. split; [exact Hle|].
    now apply high_le_facts.
  - intros j ticker s s' o. apply loop_body_effect.
Qed.

Lemma highs_never_decrease_witness :
  let w := Sample.telegram_up in
  let st := Locals {[ "AAA" := 100%float; "CCC" := 50%float ]} false in
  let run := for_tickers w 20 (1 - 20 / 100) (Some "TOKEN") (Some "42") 0
               ["AAA"; "BBB"; "CCC"] st in
  exists st' out,
    run = (Ok st', out)
    /\ exists y, highs st' !! "AAA" = Some y /\ (100 <=? y)%float = true.
Proof.
  cbn zeta.
  destruct (for_tickers Sample.telegram_up 20 (1 - 20 / 100)
              (Some "TOKEN") (Some "42") 0 ["AAA"; "BBB"; "CCC"]
              (Locals {[ "AAA" := 100%float; "CCC" := 50%float ]} false))
    as [[st'|e] out] eqn:Hrun; [|vm_compute in Hrun; discriminate].
  exists st', out. split; [reflexivity|].
  destruct (highs_never_decrease _ _ _ _ _ _ _ _ _ _ Hrun) as [H _].
  destruct (H "AAA" 100%float eq_refl) as (y & Hy & _ & _ & Hle).
  exists y. split; [exact Hy | exact (Hle eq_refl)].
Defined.

(** ** Saving at the end *)

Lemma strictly_above_neq h h' : strictly_above h h' -> h' <> h.
Proof.
  intros [_ (t & [[Hn [y Hy]]|(x & y & Hx & Hy & Hlt)])] ->.
  - congruence.
  - apply PyFloatFacts.ltb_neq in Hlt. congruence.
Qed.

Lemma strictly_above_le h1 h2 h3 :
  strictly_above h1 h2 -> highs_le h2 h3 -> strictly_above h1 h3.
Proof.
  intros [H12 (t & Ht)] H23. split; [eapply highs_le_trans; eassumption|].
  exists t. destruct Ht as [[Hn [y Hy]]|(x & y & Hx & Hy & Hlt)].
  - left. split; [exact Hn|]. destruct (H23 t y Hy) as (z & Hz & _). eauto.
  - right. destruct (H23 t y Hy) as (z & Hz & [->|Hyz]).
    + eauto 6.
    + exists x, z. repeat split; try assumption.
      eapply PyFloatFacts.ltb_trans; eassumption.
Qed.

Lemma loop_body_flag w dp df token chat_id i ticker st st' out :
  loop_body w dp df token chat_id i ticker st = (Ok st', out) ->
  flag_tracks st st' out.
Proof.
  intros Hbody.
  pose proof (loop_body_effect _ _ _ _ _ _ _ _ _ _ Hbody) as Heff.
  pose proof (turn_effect_le _ _ _ _ _ Heff) as Hle.
  revert Hbody Heff Hle.
  destruct (loop_body_turn w dp df token chat_id i ticker st) as
    [exc Hf|price Hf Hh|price high Hf Hh Hlt|price high Hf Hh Hlt Hle'
    |price high Hf Hh Hlt Hle'].
  - intros [= <- <-] _ _. now left.
  - intros [= <- <-] _ Hle. right. repeat split; try assumption.
    exists ticker. left. split; [exact Hh|]. cbn. rewrite lookup_insert_eq. eauto.
  - intros [= <- <-] _ Hle. right. repeat split; try assumption.
    exists ticker. right. exists high, price. cbn. rewrite lookup_insert_eq. auto.
  - intros Hbody _ _. left.
    pose proof (alert_branch_events w i token chat_id ticker dp price high st)
      as Hall.
    rewrite Hbody in Hall. cbn in Hall.
    split; [eapply alert_branch_state, Hbody|].
    apply not_true_is_false. intros (e & He & Hc)%existsb_exists.
    rewrite Forall_forall in Hall. apply list_elem_of_In in He.
    destruct (Hall e He) as [[->|[(? & ? & ->)|(? & ? & ->)]]| ->];
      discriminate.
  - intros [= <- <-] _ _. now left.
Qed.

Lemma for_tickers_flag w dp df token chat_id tickers :
  forall i st st' out,
    for_tickers w dp df token chat_id i tickers st = (Ok st', out) ->
    flag_tracks st st' out.
Proof.
  induction tickers as [|ticker rest IH]; intros i st st' out.
  - intros [= <- <-]. now left.
  - rewrite for_tickers_cons.
    intros (st1 & out1 & out2 & H1 & H2 & ->)%bind_inv_ok.
    pose proof (loop_body_flag _ _ _ _ _ _ _ _ _ _ H1) as F1.
    pose proof (IH _ _ _ _ H2) as F2.
    pose proof (for_tickers_le _ _ _ _ _ _ _ _ _ _ H2) as L2.
    unfold flag_tracks in *. rewrite existsb_app.
    destruct F1 as [[-> E1]|(U1 & A1 & E1)]; rewrite E1; cbn.
    + exact F2.
    + right. destruct F2 as [[-> E2]|(U2 & A2 & E2)].
      * auto.
      * split; [exact U2|].
        split; [eapply strictly_above_le; eassumption | reflexivity].
Qed.

Lemma loop_body_no_write w dp df token chat_id i ticker st :
  wrote (loop_body w dp df token chat_id i ticker st).2 = false.
Proof.
  destruct (loop_body_turn w dp df token chat_id i ticker st);
    try reflexivity.
  apply not_true_is_false. intros (e & He & Hc)%existsb_exists.
  pose proof (alert_branch_events w i token chat_id ticker dp price high st)
    as Hall.
  rewrite Forall_forall in Hall. apply list_elem_of_In in He.
  destruct (Hall e He) as [[->|[(? & ? & ->)|(? & ? & ->)]]| ->];
    discriminate.
Qed.

Lemma for_tickers_no_write w dp df token chat_id tickers :
  forall i st, wrote (for_tickers w dp df token chat_id i tickers st).2 = false.
Proof.
  induction tickers as [|ticker rest IH]; intros i st; [reflexivity|].
  rewrite for_tickers_cons, bind_out. unfold wrote. rewrite existsb_app.
  fold (wrote (loop_body w dp df token chat_id i ticker st).2).
  rewrite loop_body_no_write. cbn.
  destruct (loop_body _ _ _ _ _ _ _ _).1; [apply IH | reflexivity].
Qed.

Lemma load_entry_no_write w key value h :
  wrote (load_entry w key value h).2 = false.
Proof.
  unfold load_entry. destruct (float w value) as [x|e]; [reflexivity|].
  now destruct (is_type_or_value_error e).
Qed.

Lemma load_entries_no_write w items :
  forall h, wrote (load_entries w items h).2 = false.
Proof.
  induction items as [|[key value] rest IH]; intros h; [reflexivity|].
  cbn [load_entries]. rewrite bind_out. unfold wrote. rewrite existsb_app.
  fold (wrote (load_entry w key value h).2).
  rewrite load_entry_no_write. cbn.
  destruct (load_entry _ _ _ _).1; [apply IH | reflexivity].
Qed.

Lemma load_highs_no_write w path : wrote (load_highs w path).2 = false.
Proof.
  destruct path as [| |[]]; try reflexivity. apply load_entries_no_write.
Qed.

(** When every fetch fails, the loop returns the locals it was given. *)
Lemma for_tickers_all_failed w dp df token chat_id tickers :
  (forall i t, exists exc, fetch_price w i t = Raise exc) ->
  forall i st, (for_tickers w dp df token chat_id i tickers st).1 = Ok st.
Proof.
  intros Hfail. induction tickers as [|ticker rest IH]; intros i st;
    [reflexivity|].
  rewrite for_tickers_cons. unfold loop_body at 1.
  destruct (Hfail i ticker) as [exc ->]. cbn. apply IH.
Qed.

(** A run that reaches the end of the loop is the loading of the highs,
    the loop, and [finish]. *)
Lemma main_completed w tickers dp highs0 outh st outl :
  load_config w (config_json w) = Ok (tickers, dp) ->
  load_highs w (highs_json w) = (Ok highs0, outh) ->
  for_tickers w dp (1 - dp / 100) (getenv w "TELEGRAM_BOT_TOKEN")
    (getenv w "TELEGRAM_CHAT_ID") 0 tickers (Locals highs0 false)
    = (Ok st, outl) ->
  main w = (Ok tt, outh ++ outl ++ (finish st).2).
Proof.
  intros Hcfg Hload Hloop. unfold main, lift.
  rewrite Hcfg, bind_ok. cbn [app]. rewrite Hload, bind_ok, Hloop, bind_ok.
  cbn [fst snd]. f_equal. unfold finish.
  now destruct (updated_highs st).
Qed.

(** X21. In a run that reaches the end of the loop, [save_highs] writes
    the file exactly when the high of some ticker was set or raised, that
    is, exactly when the table differs from the loaded one, and the write
    is the last thing but one the run does. When no high changed, which is
    the case when every fetch fails, nothing is written and the run ends
    with the "No high updates." line. *)
Theorem save_iff_high_changed (w : world) (tickers : list string)
    (drop_percent : PrimFloat.float) (highs0 : gmap string PrimFloat.float)
    (st : locals) (outh outl : list event) :
  load_config w (config_json w) = Ok (tickers, drop_percent) ->
  load_highs w (highs_json w) = (Ok highs0, outh) ->
  for_tickers w drop_percent (1 - drop_percent / 100)
    (getenv w "TELEGRAM_BOT_TOKEN") (getenv w "TELEGRAM_CHAT_ID")
    0 tickers (Locals highs0 false) = (Ok st, outl) ->
  (wrote (main w).2 = true <-> existsb is_high_change outl = true)
  /\ (wrote (main w).2 = true <-> highs st <> highs0)
  /\ (highs st <> highs0 ->
        main w = (Ok tt, outh ++ outl
                         ++ [WriteHighs (save_highs (highs st));
                             Print SavedHighs]))
  /\ (highs st = highs0 ->
        main w = (Ok tt, outh ++ outl ++ [Print NoHighUpdates])
        /\ wrote (main w).2 = false)
  /\ ((forall i t, exists exc, fetch_price w i t = Raise exc) ->
        highs st = highs0).
Proof.
  intros Hcfg Hload Hloop.
  pose proof (main_completed _ _ _ _ _ _ _ Hcfg Hload Hloop) as Hmain.
  pose proof (for_tickers_flag _ _ _ _ _ _ _ _ _ _ Hloop) as Hflag.
  assert (Hquiet : wrote (outh ++ outl) = false).
  { unfold wrote. rewrite existsb_app.
    pose proof (load_highs_no_write w (highs_json w)) as H1.
    pose proof (for_tickers_no_write w drop_percent (1 - drop_percent / 100)
                  (getenv w "TELEGRAM_BOT_TOKEN") (getenv w "TELEGRAM_CHAT_ID")
                  tickers 0 (Locals highs0 false)) as H2.
    rewrite Hload in H1. rewrite Hloop in H2. unfold wrote in H1, H2. cbn in H1, H2.
    now rewrite H1, H2. }
  assert (Hwrote : wrote (main w).2 = updated_highs st).
  { rewrite Hmain. cbn [snd]. unfold wrote in *.
    rewrite app_assoc, existsb_app, Hquiet. unfold finish.
    now destruct (updated_highs st). }
  assert (Hupd : updated_highs st = true <-> highs st <> highs0).
  { destruct Hflag as [[-> _]|(U & A & _)]; cbn.
    - split; [discriminate | congruence].
    - split; [intros _; now apply strictly_above_neq in A | auto]. }
  assert (Hev : updated_highs st = true <-> existsb is_high_change outl = true).
  { destruct Hflag as [[-> E]|(U & _ & E)]; cbn; rewrite E.
    - split; discriminate.
    - now rewrite U. }
  repeat split.
  - rewrite Hwrote. apply Hev.
  - rewrite Hwrote. apply Hev.
  - rewrite Hwrote. apply Hupd.
  - rewrite Hwrote. apply Hupd.
  - intros Hne. apply Hupd in Hne. rewrite Hmain. unfold finish.
    now rewrite Hne.
  - rewrite Hmain. unfold finish.
    destruct (updated_highs st); [|reflexivity].
    exfalso. now apply (proj1 Hupd).
  - rewrite Hwrote. destruct (updated_highs st); [|reflexivity].
    exfalso. now apply (proj1 Hupd).
  - intros Hfail.
    pose proof (for_tickers_all_failed w drop_percent (1 - drop_percent / 100)
                  (getenv w "TELEGRAM_BOT_TOKEN") (getenv w "TELEGRAM_CHAT_ID")
                  tickers Hfail 0 (Locals highs0 false)) as H.
    rewrite Hloop in H. now injection H as ->.
Qed.

Lemma save_iff_high_changed_witness :
  let w := Sample.telegram_up in
  let highs0 : gmap string PrimFloat.float :=
    {[ "AAA" := 100%float; "CCC" := 50%float ]} in
  load_config w (config_json w) = Ok (["AAA"; "BBB"; "CCC"], 20%float)
  /\ load_highs w (highs_json w) = (Ok highs0, [])
  /\ exists st outl,
       for_tickers w 20 (1 - 20 / 100) (getenv w "TELEGRAM_BOT_TOKEN")
         (getenv w "TELEGRAM_CHAT_ID") 0 ["AAA"; "BBB"; "CCC"]
         (Locals highs0 false) = (Ok st, outl)
       /\ (wrote (main w).2 = true <-> highs st <> highs0).
Proof.
  cbn zeta.
  assert (Hcfg : load_config Sample.telegram_up (config_json Sample.telegram_up)
                 = Ok (["AAA"; "BBB"; "CCC"], 20%float))
    by (vm_compute; reflexivity).
  assert (Hload : load_highs Sample.telegram_up (highs_json Sample.telegram_up)
                  = (Ok {[ "AAA" := 100%float; "CCC" := 50%float ]}, []))
    by (vm_compute; reflexivity).
  split; [exact Hcfg|]. split; [exact Hload|].
  destruct (for_tickers Sample.telegram_up 20 (1 - 20 / 100)
              (getenv Sample.telegram_up "TELEGRAM_BOT_TOKEN")
              (getenv Sample.telegram_up "TELEGRAM_CHAT_ID") 0
              ["AAA"; "BBB"; "CCC"]
              (Locals {[ "AAA" := 100%float; "CCC" := 50%float ]} false))
    as [[st|e] outl] eqn:Hloop; [|vm_compute in Hloop; discriminate].
  exists st, outl. split; [reflexivity|].
  exact (proj1 (proj2 (save_iff_high_changed Sample.telegram_up _ _ _ _ _ _
                         Hcfg Hload Hloop))).
Defined.

(** The "No high updates." line. *)
Definition is_no_updates (e : event) : bool :=
  match e with
  | Print NoHighUpdates => true
  | _ => false
  end.

(** C9, where the code departs from it. Telegram is configured and cannot
    be reached when the alert for CCC is sent. Before that, in the same
    run, the high of AAA was raised and the high of BBB was set; the
    exception of the request ends [main] in the loop, before the lines that
    persist the table: [save_highs] is never called although highs
    changed, and the "No high updates." line is not printed either. *)
Theorem changed_highs_lost_when_run_aborts :
  let out := (main Sample.telegram_down).2 in
  (main Sample.telegram_down).1 = Raise (Exception "ConnectionError")
  /\ high_changed_for "AAA" out = true
  /\ high_changed_for "BBB" out = true
  /\ wrote out = false
  /\ existsb is_no_updates out = false.
Proof. repeat split; vm_compute; reflexivity. Qed.

(** ** Delivery of an alert *)

(** Without a token or without a chat id nothing is posted and the answer
    is [False]. *)
Lemma send_unconfigured w i token chat_id text :
  opt_truthy token = false \/ opt_truthy chat_id = false ->
  send_telegram_message w i token chat_id text
  = (Ok false, [Print TelegramNotConfigured]).
Proof.
  unfold send_telegram_message.
  intros [-> | ->]; [|rewrite orb_true_r]; reflexivity.
Qed.

(** A response that is not [ok] is printed and answered with [False]. *)
Lemma send_refused w i tok chat text r :
  str_truthy tok = true -> str_truthy chat = true ->
  let url := "https://api.telegram.org/bot" +:+ tok +:+ "/sendMessage" in
  requests_post w i url chat text = Ok r -> Response.ok r = false ->
  send_telegram_message w i (Some tok) (Some chat) text
  = (Ok false,
     [Post url chat text;
      Print (TelegramError (Response.status_code r) (Response.text r))]).
Proof.
  intros Htok Hchat url Hpost Hok.
  unfold send_telegram_message, post. cbn [opt_truthy].
  rewrite Htok, Hchat. cbn [negb orb].
  change (default "" (Some tok)) with tok.
  change (default "" (Some chat)) with chat. fold url.
  unfold lift, emit. rewrite Hpost. cbn. now rewrite Hok.
Qed.

(** An exception of [requests.post] leaves [send_telegram_message]. *)
Lemma send_raises w i tok chat text e :
  str_truthy tok = true -> str_truthy chat = true ->
  let url := "https://api.telegram.org/bot" +:+ tok +:+ "/sendMessage" in
  requests_post w i url chat text = Raise e ->
  send_telegram_message w i (Some tok) (Some chat) text
  = (Raise e, [Post url chat text]).
Proof.
  intros Htok Hchat url Hpost.
  unfold send_telegram_message, post. cbn [opt_truthy].
  rewrite Htok, Hchat. cbn [negb orb].
  change (default "" (Some tok)) with tok.
  change (default "" (Some chat)) with chat. fold url.
  unfold lift, emit. now rewrite Hpost.
Qed.

(** C4, where the code departs from it. Telegram is configured and cannot
    be reached when the alert for CCC is sent: [send_telegram_message]
    raises instead of answering [False], [main] ends with that exception,
    and the highs raised for AAA and set for BBB earlier in the run are
    not written. With Telegram answering, the same run ends normally and
    writes them. *)
Theorem telegram_exception_aborts_run :
  let text := Message "CCC" 20 30 50 in
  let url := "https://api.telegram.org/botTOKEN/sendMessage" in
  send_telegram_message Sample.telegram_down 2 (Some "TOKEN") (Some "42") text
    = (Raise (Exception "ConnectionError"), [Post url "42" text])
  /\ main Sample.telegram_down
     = (Raise (Exception "ConnectionError"),
        [Print (NewHigh "AAA" 110 100); Print (InitialHigh "BBB" 7);
         Post url "42" text])
  /\ wrote (main Sample.telegram_down).2 = false
  /\ main Sample.telegram_up
     = (Ok tt,
        [Print (NewHigh "AAA" 110 100); Print (InitialHigh "BBB" 7);
         Post url "42" text; Print (AlertSent "CCC" 30 50);
         WriteHighs (PDict [("AAA", PFloat 110); ("BBB", PFloat 7);
                            ("CCC", PFloat 50)]);
         Print SavedHighs]).
Proof. repeat split; vm_compute; reflexivity. Qed.

(** ** Fetching a price *)

(** A fast quote that is there and truthy is the price. *)
Lemma fetch_price_fast w i ticker tk fi p :
  yf_Ticker w i ticker = Ok tk ->
  fast_info_attr tk = Ok (Some fi) ->
  get_last_price fi = Ok (Some p) ->
  PyFloat.truthy p = true ->
  fetch_price w i ticker = Ok p.
Proof.
  intros Htk Hfi Hp Ht. unfold fetch_price.
  rewrite Htk. cbn. rewrite Hfi, Hp. cbn. now rewrite Ht.
Qed.

(** Without a usable fast quote the price is the last close of the five
    day window. An exception of the [fast_info] attribute counts as no
    fast quote. *)
Lemma fetch_price_fallback w i ticker tk :
  yf_Ticker w i ticker = Ok tk ->
  (exists e, fast_info_attr tk = Raise e)
  \/ fast_info_attr tk = Ok None
  \/ (exists fi,
        fast_info_attr tk = Ok (Some fi)
        /\ (get_last_price fi = Ok None
            \/ exists p, get_last_price fi = Ok (Some p)
                         /\ PyFloat.truthy p = false)) ->
  fetch_price w i ticker = from_history tk.
Proof.
  intros Htk Hcase. unfold fetch_price, from_history. rewrite Htk. cbn.
  destruct Hcase as [[e ->]|[->|(fi & -> & [->|(p & -> & Hp)])]]; cbn;
    try reflexivity.
  now rewrite Hp.
Qed.

(** The historical path fails with "No price data returned." exactly when
    the window has no row. *)
Lemma from_history_no_data tk :
  from_history tk = Raise (ValueError "No price data returned.")
  <-> history tk "5d" = Ok []
      \/ history tk "5d" = Raise (ValueError "No price data returned.").
Proof.
  unfold from_history.
  destruct (history tk "5d") as [closes|e]; cbn.
  - destruct (last closes) as [close|] eqn:Hlast.
    + split; [discriminate|]. intros [[= ->]|[=]]. discriminate.
    + apply last_None in Hlast as ->. split; auto.
  - split; [intros [= ->]; now right | intros [[=]|[= ->]]; reflexivity].
Qed.

(** An exception of the [last_price] lookup leaves [fetch_price]; the
    historical path is not tried. *)
Lemma fetch_price_lookup_raises w i ticker tk fi e :
  yf_Ticker w i ticker = Ok tk ->
  fast_info_attr tk = Ok (Some fi) ->
  get_last_price fi = Raise e ->
  fetch_price w i ticker = Raise e.
Proof.
  intros Htk Hfi He. unfold fetch_price.
  rewrite Htk. cbn. now rewrite Hfi, He.
Qed.

(** C8, where the code departs from it. The fast-info object of AAA is
    there and reading [last_price] from it raises, while the provider has
    closes for AAA: [fetch_price] lets the exception out instead of
    falling back to the last close, and the run gives up on AAA. Only an
    exception of the [fast_info] attribute itself is swallowed: then the
    last close, 2.0, is the price. *)
Theorem fast_quote_exception_propagates :
  fetch_price Sample.quote_lookup_fails 0 "AAA"
    = Raise (Exception "quote lookup failed")
  /\ (tk ← yf_Ticker Sample.quote_lookup_fails 0 "AAA"; from_history tk)
     = Ok 2%float
  /\ main Sample.quote_lookup_fails
     = (Ok tt, [Print (FetchFailed "AAA" (Exception "quote lookup failed"));
                Print NoHighUpdates])
  /\ fetch_price Sample.fast_info_fails 0 "AAA" = Ok 2%float.
Proof. repeat split; vm_compute; reflexivity. Qed.

(** ** Loading the configuration *)

Lemma normalize_tickers_strs (w : world) (names : list string) :
  normalize_tickers w (PStr <$> names)
  = Ok ((fun t => str_upper w (str_strip w t))
          <$> List.filter (fun t => str_truthy (str_strip w t)) names).
Proof.
  induction names as [|t names IH]; [reflexivity|].
  cbn [fmap list_fmap normalize_tickers List.filter].
  change (list_fmap _ _ PStr names) with (PStr <$> names). rewrite IH.
  now destruct (str_truthy (str_strip w t)).
Qed.






(** ** Loading and saving the highs *)

Lemma load_entries_spec w items :
  no_overflow w items ->
  forall h,
    load_entries w items h
    = (Ok (foldr (fun p m => <[p.1 := p.2]> m) h (reverse (converted w items))),
       warnings w items).
Proof.
  induction 1 as [|[key value] rest Hhead _ IH]; intros h; [reflexivity|].
  cbn [load_entries]. unfold load_entry, converted, warnings.
  cbn [omap list_omap].
  fold (converted w rest). fold (warnings w rest).
  destruct (float w value) as [x|e] eqn:Hfloat.
  - change (mret (<[str_upper w key:=x]> h))
      with ((Ok (<[str_upper w key:=x]> h), [])
            : M (gmap string PrimFloat.float)).
    rewrite bind_ok, IH. cbn [fst snd app].
    now rewrite reverse_cons, foldr_app.
  - rewrite (Hhead e eq_refl).
    change (_ ← print (BadHighWarning key value); mret h)
      with ((Ok h, [Print (BadHighWarning key value)])
            : M (gmap string PrimFloat.float)).
    now rewrite bind_ok, IH.
Qed.

(** The table a well-behaved highs file loads as: each converted entry
    under its key in upper case, a later entry winning over an earlier one
    with the same key. *)
Lemma load_highs_spec w raw :
  no_overflow w raw ->
  load_highs w (Json (PDict raw))
  = (Ok (list_to_map (reverse (converted w raw))), warnings w raw).
Proof. intros H. cbn [load_highs]. now rewrite load_entries_spec. Qed.

Lemma save_highs_ordered m :
  save_highs m = PDict ((fun p => (p.1, PFloat p.2)) <$> ordered m).
Proof.
  unfold save_highs, ordered. f_equal.
  induction (sorted m) as [|k ks IH]; [reflexivity|].
  cbn [omap list_omap]. destruct (m !! k); cbn; now rewrite ?IH.
Qed.

Lemma omap_lookup_fst (m : gmap string PrimFloat.float)
    (l : list (string * PrimFloat.float)) :
  Forall (fun p => m !! p.1 = Some p.2) l ->
  omap (fun k => (fun x => (k, x)) <$> m !! k) l.*1 = l.
Proof.
  induction 1 as [|[k x] l Hk _ IH]; [reflexivity|].
  cbn in *. rewrite Hk. cbn. now rewrite IH.
Qed.

Lemma ordered_Permutation m : ordered m ≡ₚ map_to_list m.
Proof.
  unfold ordered, sorted. rewrite merge_sort_Permutation.
  rewrite omap_lookup_fst; [reflexivity|].
  apply Forall_forall. intros [k x] Hin. now apply elem_of_map_to_list.
Qed.

Lemma float_items_no_overflow w (l : list (string * PrimFloat.float)) :
  no_overflow w ((fun p => (p.1, PFloat p.2)) <$> l).
Proof.
  unfold no_overflow. apply Forall_fmap, Forall_forall.
  intros [k x] _ e. discriminate.
Qed.

Lemma float_items_warnings w (l : list (string * PrimFloat.float)) :
  warnings w ((fun p => (p.1, PFloat p.2)) <$> l) = [].
Proof. induction l as [|[k x] l IH]; [reflexivity | exact IH]. Qed.

Lemma float_items_converted w (l : list (string * PrimFloat.float)) :
  Forall (fun p => str_upper w p.1 = p.1) l ->
  converted w ((fun p => (p.1, PFloat p.2)) <$> l) = l.
Proof.
  induction 1 as [|[k x] l Hk _ IH]; [reflexivity|].
  cbn in *. unfold converted in IH. now rewrite Hk, IH.
Qed.

(** C5. Saving a table whose keys are tickers in normal form and loading
    the file again gives the table back, with no warning; the values may be
    any floats, positive ones in particular. *)
Theorem save_load_roundtrip (w : world) (m : gmap string PrimFloat.float) :
  well_formed w m ->
  load_highs w (Json (save_highs m)) = (Ok m, []).
Proof.
  intros Hwf.
  assert (Hkeys : Forall (fun p => str_upper w p.1 = p.1) (ordered m)).
  { rewrite ordered_Permutation. apply Forall_forall. intros [k x] Hin.
    apply elem_of_map_to_list in Hin. exact (Hwf k x Hin). }
  rewrite save_highs_ordered, load_highs_spec by apply float_items_no_overflow.
  rewrite float_items_warnings, float_items_converted by exact Hkeys.
  f_equal. f_equal. rewrite <- (list_to_map_to_list m) at 2.
  symmetry. apply list_to_map_proper.
  - apply NoDup_fst_map_to_list.
  - now rewrite reverse_Permutation, ordered_Permutation.
Qed.

Lemma save_load_roundtrip_witness :
  let m : gmap string PrimFloat.float :=
    {[ "MSFT" := 7%float; "AAA" := 110.5%float ]} in
  well_formed Sample.at_threshold m
  /\ save_highs m = PDict [("AAA", PFloat 110.5); ("MSFT", PFloat 7)]
  /\ load_highs Sample.at_threshold (Json (save_highs m)) = (Ok m, []).
Proof.
  cbn zeta.
  assert (Hwf : well_formed Sample.at_threshold
                  ({[ "MSFT" := 7%float; "AAA" := 110.5%float ]}
                   : gmap string PrimFloat.float)).
  { apply map_Forall_insert_2; [reflexivity|].
    apply map_Forall_insert_2; [reflexivity|]. apply map_Forall_empty. }
  split; [exact Hwf|]. split; [vm_compute; reflexivity|].
  exact (save_load_roundtrip Sample.at_threshold _ Hwf).
Defined.

(** A file that is not there loads as the empty table. *)
Lemma load_highs_absent w : load_highs w Absent = (Ok ∅, []).
Proof. reflexivity. Qed.

(** A file that does not hold a JSON object is refused with a
    [ValueError] (a [JSONDecodeError] is one). *)
Lemma load_highs_not_object w path :
  path <> Absent -> (forall raw, path <> Json (PDict raw)) ->
  exists e, load_highs w path = (Raise e, [])
            /\ is_type_or_value_error e = true
            /\ e <> TypeError.
Proof.
  intros Hpresent Hshape.
  destruct path as [| |[]]; try congruence;
    try (eexists; split; [reflexivity|]; split; [reflexivity | discriminate]).
Qed.

(** An entry that [float] refuses with a [TypeError] or a [ValueError] is
    left out with a warning, and the loop goes on. *)
Lemma load_entry_skipped w key value h e :
  float w value = Raise e -> is_type_or_value_error e = true ->
  load_entry w key value h = (Ok h, [Print (BadHighWarning key value)]).
Proof. intros Hf He. unfold load_entry. now rewrite Hf, He. Qed.

(** C7, where the code departs from it. The file [{"AAA": 10, "BBB": "x"}]
    loads as [{"AAA": 10.0}] with a warning for BBB. When the value of BBB
    is an integer too large for a float (1 followed by 400 zeros),
    [float] raises an [OverflowError], which the [except] clause does not
    list: [load_highs] ends with that exception, no warning is printed and
    AAA is not loaded either. *)
Theorem load_highs_overflow_aborts :
  let w := Sample.at_threshold in
  load_highs w (Json (PDict [("AAA", PInt 10); ("BBB", PStr "x")]))
    = (Ok {[ "AAA" := 10%float ]}, [Print (BadHighWarning "BBB" (PStr "x"))])
  /\ float w (PInt (10 ^ 400)) = Raise OverflowError
  /\ load_highs w (Json (PDict [("AAA", PInt 10); ("BBB", PInt (10 ^ 400))]))
     = (Raise OverflowError, []).
Proof. repeat split; vm_compute; reflexivity. Qed.

(** C10, where the code departs from it. Keys are put in upper case and
    every value that [float] converts is kept, be it a numeric string, a
    boolean, a zero, a negative number or a NaN. An entry whose conversion
    fails with an [OverflowError] is not left out like the other failures:
    with it in the file [load_highs] returns no table at all. *)
Theorem load_highs_overflow_not_skipped :
  let w := Sample.at_threshold in
  let kept :=
    [("aapl", PStr "12.5"); ("t", PBool true); ("zero", PInt 0);
     ("neg", PFloat (-1)); ("odd", PStr "nan"); ("bad", PNone)] in
  load_highs w (Json (PDict kept))
    = (Ok {[ "AAPL" := 12.5%float; "T" := 1%float; "ZERO" := 0%float;
             "NEG" := (-1)%float; "ODD" := nan ]},
       [Print (BadHighWarning "bad" PNone)])
  /\ no_overflow w kept
  /\ ~ no_overflow w (kept ++ [("big", PInt (2 ^ 1024))])
  /\ load_highs w (Json (PDict (kept ++ [("big", PInt (2 ^ 1024))])))
     = (Raise OverflowError, [Print (BadHighWarning "bad" PNone)]).
Proof.
  cbn zeta. split; [vm_compute; reflexivity|]. split; [|split].
  - unfold no_overflow. repeat (apply List.Forall_cons; [|]);
      try apply List.Forall_nil; intros e; vm_compute; intros [= <-]; reflexivity.
  - unfold no_overflow. intros Hall.
    apply Forall_app in Hall as [_ Hbig].
    apply Forall_inv in Hbig. specialize (Hbig OverflowError).
    vm_compute in Hbig. specialize (Hbig eq_refl). discriminate.
  - vm_compute. reflexivity.
Qed.

(** * Further properties of the program *)

(** ** Facts about [str.upper]

    Two facts about Python's [str.upper] that some properties below rest
    on. They are hypotheses of those properties, not assumptions of this
    file; the stand-in of the sample worlds has them. *)

(** Putting a text in upper case a second time changes nothing. *)
Definition upper_idempotent (w : world) : Prop :=
  forall s, str_upper w (str_upper w s) = str_upper w s.

(** Only the empty text has an empty upper case. *)
Definition upper_keeps_text (w : world) : Prop :=
  forall s, s <> "" -> str_upper w s <> "".

Module SampleFacts.

Lemma upper_ascii_idem (c : ascii) :
  Sample.upper_ascii (Sample.upper_ascii c) = Sample.upper_ascii c.
Proof. destruct c as [[] [] [] [] [] [] [] []]; reflexivity. Qed.

Lemma upper_idem (s : string) : Sample.upper (Sample.upper s) = Sample.upper s.
Proof.
  induction s as [|c s IH]; [reflexivity|].
  cbn. now rewrite upper_ascii_idem, IH.
Qed.

Lemma upper_nonempty (s : string) : s <> "" -> Sample.upper s <> "".
Proof. destruct s; [congruence | intros _; discriminate]. Qed.

Lemma at_threshold_idempotent : upper_idempotent Sample.at_threshold.
Proof. exact upper_idem. Qed.

Lemma at_threshold_keeps_text : upper_keeps_text Sample.at_threshold.
Proof. exact upper_nonempty. Qed.

Lemma telegram_up_idempotent : upper_idempotent Sample.telegram_up.
Proof. exact upper_idem. Qed.

End SampleFacts.

Lemma str_truthy_nonempty (s : string) : str_truthy s = true <-> s <> "".
Proof.
  unfold str_truthy. destruct (String.eqb_spec s ""); cbn; split; congruence.
Qed.

(** ** What [load_config] returns *)

(** A ticker in normal form: not empty, and left as it is by [str.upper]. *)
Definition normal_ticker (w : world) (t : string) : Prop :=
  t <> "" /\ str_upper w t = t.

Lemma normalize_tickers_upper w xs :
  upper_idempotent w ->
  forall ts, normalize_tickers w xs = Ok ts ->
             Forall (fun t => str_upper w t = t) ts.
Proof.
  intros Hidem. induction xs as [|x xs IH]; intros ts.
  - intros [= <-]. apply List.Forall_nil.
  - destruct x as [| | | |t| |]; try discriminate. cbn [normalize_tickers].
    destruct (str_truthy (str_strip w t)) eqn:Ht; [|apply IH].
    destruct (normalize_tickers w xs) as [ts'|e]; [|discriminate].
    intros [= <-]. apply List.Forall_cons; [apply Hidem | now apply IH].
Qed.

Lemma normalize_tickers_nonempty w xs :
  upper_keeps_text w ->
  forall ts, normalize_tickers w xs = Ok ts -> Forall (fun t => t <> "") ts.
Proof.
  intros Hkeep. induction xs as [|x xs IH]; intros ts.
  - intros [= <-]. apply List.Forall_nil.
  - destruct x as [| | | |t| |]; try discriminate. cbn [normalize_tickers].
    destruct (str_truthy (str_strip w t)) eqn:Ht; [|apply IH].
    destruct (normalize_tickers w xs) as [ts'|e]; [|discriminate].
    intros [= <-]. apply List.Forall_cons; [|now apply IH].
    now apply Hkeep, str_truthy_nonempty.
Qed.

(** The tickers and the drop percent of a configuration that loads. *)
Lemma load_config_inv w path tickers dp :
  load_config w path = Ok (tickers, dp) ->
  tickers <> []
  /\ (exists xs, normalize_tickers w xs = Ok tickers)
  /\ (0 <? dp)%float = true /\ (dp <? 100)%float = true.
Proof.
  unfold load_config.
  destruct path as [| |[| | | | | |data]]; try discriminate.
  destruct (iter w _) as [xs|e]; [|discriminate]. cbn [mbind result_bind].
  destruct (normalize_tickers w xs) as [ts|e] eqn:Hts; [|discriminate].
  cbn [mbind result_bind]. destruct ts as [|t ts]; [discriminate|].
  destruct (float w _) as [x|e]; [|discriminate]. cbn [mbind result_bind].
  destruct (0 <? x)%float eqn:H0, (x <? 100)%float eqn:H100;
    try discriminate.
  intros [= <- <-]. split; [discriminate|]. split; [now exists xs | auto].
Qed.

(** X1. Whatever the configuration file holds, a configuration that
    [load_config] returns has at least one ticker and a drop percent
    strictly between 0 and 100 (so it is a number); and, [str.upper]
    being idempotent and keeping a text that is not empty not empty, every
    ticker is non-empty and in upper case. *)
Theorem load_config_returns_valid (w : world) (path : file)
    (tickers : list string) (drop_percent : PrimFloat.float) :
  upper_idempotent w -> upper_keeps_text w ->
  load_config w path = Ok (tickers, drop_percent) ->
  tickers <> []
  /\ Forall (normal_ticker w) tickers
  /\ (0 <? drop_percent)%float = true
  /\ (drop_percent <? 100)%float = true.
Proof.
  intros Hidem Hkeep Hcfg.
  destruct (load_config_inv _ _ _ _ Hcfg) as (Hne & (xs & Hxs) & H0 & H100).
  split; [exact Hne|]. split; [|auto].
  pose proof (normalize_tickers_upper w xs Hidem _ Hxs) as Hup.
  pose proof (normalize_tickers_nonempty w xs Hkeep _ Hxs) as Hnon.
  rewrite Forall_forall in *. intros t Ht. split; auto.
Qed.

Lemma load_config_returns_valid_witness :
  let w := Sample.at_threshold in
  let path :=
    Json (PDict [("tickers", PList [PStr " aapl "; PStr "  "; PStr "msft"])]) in
  load_config w path = Ok (["AAPL"; "MSFT"], 20%float)
  /\ Forall (normal_ticker w) ["AAPL"; "MSFT"].
Proof.
  split; [reflexivity|].
  exact (proj1 (proj2 (load_config_returns_valid Sample.at_threshold
    (Json (PDict [("tickers", PList [PStr " aapl "; PStr "  "; PStr "msft"])]))
    ["AAPL"; "MSFT"] 20 SampleFacts.at_threshold_idempotent
    SampleFacts.at_threshold_keeps_text eq_refl))).
Defined.

Lemma normalize_tickers_not_str w xs :
  (exists x, x ∈ xs /\ forall s, x <> PStr s) ->
  normalize_tickers w xs = Raise AttributeError.
Proof.
  intros (x & Hin & Hx). induction xs as [|y xs IH]; [inversion Hin|].
  destruct y as [| | | |t| |]; try reflexivity.
  assert (Hin' : x ∈ xs).
  { apply elem_of_cons in Hin as [->|Hin]; [|exact Hin]. now destruct (Hx t). }
  cbn [normalize_tickers]. rewrite (IH Hin').
  now destruct (str_truthy (str_strip w t)).
Qed.

(** X2. A [tickers] list with an element that is not a string (a number,
    [null], a nested list, ...) is never cleaned up silently: wherever the
    element stands in the list, [load_config] ends with an
    [AttributeError], not with its own [ValueError]. *)
Theorem load_config_non_string_ticker (w : world)
    (data : list (string * pyval)) (xs : list pyval) :
  dict_get "tickers" data (PList []) = PList xs ->
  (exists x, x ∈ xs /\ forall s, x <> PStr s) ->
  load_config w (Json (PDict data)) = Raise AttributeError.
Proof.
  intros Hxs Hbad. unfold load_config. rewrite Hxs. cbn [iter mbind result_bind].
  now rewrite (normalize_tickers_not_str w xs Hbad).
Qed.

Lemma load_config_non_string_ticker_witness :
  let data := [("tickers", PList [PStr "AAA"; PInt 5]); ("drop_percent", PInt 20)] in
  dict_get "tickers" data (PList []) = PList [PStr "AAA"; PInt 5]
  /\ load_config Sample.at_threshold (Json (PDict data)) = Raise AttributeError.
Proof.
  split; [reflexivity|].
  apply (load_config_non_string_ticker Sample.at_threshold
           [("tickers", PList [PStr "AAA"; PInt 5]); ("drop_percent", PInt 20)]
           [PStr "AAA"; PInt 5] eq_refl).
  exists (PInt 5). split; [|discriminate].
  apply elem_of_cons. right. apply elem_of_cons. now left.
Defined.

(** X3. A [tickers] field that is a string instead of a list is accepted:
    the comprehension runs over the characters of the string, so the
    tickers are those characters that do not strip to the empty string,
    each stripped and put in upper case. *)
Theorem load_config_string_tickers (w : world) (data : list (string * pyval))
    (s : string) (dp : PrimFloat.float) :
  dict_get "tickers" data (PList []) = PStr s ->
  float w (dict_get "drop_percent" data (PInt 20)) = Ok dp ->
  (0 <? dp)%float = true -> (dp <? 100)%float = true ->
  let tickers :=
    (fun c => str_upper w (str_strip w c))
      <$> List.filter (fun c => str_truthy (str_strip w c)) (str_chars w s) in
  tickers <> [] ->
  load_config w (Json (PDict data)) = Ok (tickers, dp).
Proof.
  intros Hs Hdp H0 H100 tickers Hne. unfold load_config.
  rewrite Hs. cbn [iter mbind result_bind]. rewrite normalize_tickers_strs.
  fold tickers. cbn [mbind result_bind].
  destruct tickers as [|t ts]; [congruence|].
  rewrite Hdp. cbn [mbind result_bind]. now rewrite H0, H100.
Qed.

Lemma load_config_string_tickers_witness :
  let data := [("tickers", PStr "ab c")] in
  load_config Sample.at_threshold (Json (PDict data))
  = Ok (["A"; "B"; "C"], 20%float).
Proof.
  apply (load_config_string_tickers Sample.at_threshold
           [("tickers", PStr "ab c")] "ab c" 20 eq_refl eq_refl eq_refl eq_refl).
  discriminate.
Defined.

(** ** What [save_highs] writes *)

Lemma sorted_Permutation (m : gmap string PrimFloat.float) :
  sorted m ≡ₚ (map_to_list m).*1.
Proof. apply merge_sort_Permutation. Qed.

Lemma sorted_NoDup (m : gmap string PrimFloat.float) : NoDup (sorted m).
Proof. rewrite sorted_Permutation. apply NoDup_fst_map_to_list. Qed.

Lemma elem_of_sorted (m : gmap string PrimFloat.float) (k : string) :
  k ∈ sorted m <-> is_Some (m !! k).
Proof.
  rewrite sorted_Permutation, list_elem_of_fmap. split.
  - intros ([k' x] & -> & Hin). apply elem_of_map_to_list in Hin. now exists x.
  - intros [x Hx]. exists (k, x). split; [reflexivity|].
    now apply elem_of_map_to_list.
Qed.

Lemma omap_lookup_keys (m : gmap string PrimFloat.float) (ks : list string) :
  Forall (fun k => is_Some (m !! k)) ks ->
  (omap (fun k => (fun x => (k, x)) <$> m !! k) ks).*1 = ks.
Proof.
  induction 1 as [|k ks [x Hx] _ IH]; [reflexivity|].
  cbn. rewrite Hx. cbn. now rewrite IH.
Qed.

Lemma ordered_keys (m : gmap string PrimFloat.float) :
  (ordered m).*1 = sorted m.
Proof.
  apply omap_lookup_keys, Forall_forall. intros k. apply elem_of_sorted.
Qed.

(** X4. [save_highs] writes one item per ticker of the table, with the
    ticker's high as a float, and the items stand in ascending order of
    their keys, each key once: the file does not depend on the order in
    which the highs were recorded. *)
Theorem save_highs_sorted_items (m : gmap string PrimFloat.float) :
  exists items,
    save_highs m = PDict items
    /\ StronglySorted String.le items.*1
    /\ NoDup items.*1
    /\ (forall k v,
          (k, v) ∈ items <-> exists x, m !! k = Some x /\ v = PFloat x).
Proof.
  exists ((fun p => (p.1, PFloat p.2)) <$> ordered m).
  assert (Hkeys : ((fun p : string * PrimFloat.float => (p.1, PFloat p.2))
                     <$> ordered m).*1 = sorted m).
  { rewrite <- ordered_keys, <- !list_fmap_compose. reflexivity. }
  split; [apply save_highs_ordered|]. rewrite Hkeys.
  split; [apply StronglySorted_merge_sort; apply _|].
  split; [apply sorted_NoDup|].
  intros k v. rewrite list_elem_of_fmap. split.
  - intros ([k' x] & [= -> ->] & Hin). exists x. split; [|reflexivity].
    rewrite ordered_Permutation in Hin. now apply elem_of_map_to_list in Hin.
  - intros (x & Hx & ->). exists (k, x). split; [reflexivity|].
    rewrite ordered_Permutation. now apply elem_of_map_to_list.
Qed.

(** ** What [load_highs] returns *)

(** A warning about an entry of the highs file. *)
Definition is_warning (e : event) : Prop :=
  exists key value, e = Print (BadHighWarning key value).

Lemma load_entries_only_warns w items :
  forall h, Forall is_warning (load_entries w items h).2.
Proof.
  induction items as [|[key value] rest IH]; intros h; [apply List.Forall_nil|].
  cbn [load_entries]. rewrite bind_out. apply Forall_app. split.
  - unfold load_entry. destruct (float w value) as [x|e];
      [apply List.Forall_nil|].
    destruct (is_type_or_value_error e); [|apply List.Forall_nil].
    apply List.Forall_cons; [now exists key, value | apply List.Forall_nil].
  - destruct (load_entry w key value h).1; [apply IH | apply List.Forall_nil].
Qed.

Lemma load_highs_only_warns w path : Forall is_warning (load_highs w path).2.
Proof.
  destruct path as [| |[| | | | | |raw]]; try apply List.Forall_nil.
  apply load_entries_only_warns.
Qed.

Lemma load_entries_well_formed w items :
  upper_idempotent w ->
  forall h m out,
    well_formed w h ->
    load_entries w items h = (Ok m, out) ->
    well_formed w m.
Proof.
  intros Hidem. induction items as [|[key value] rest IH]; intros h m out Hwf.
  - now intros [= <- _].
  - cbn [load_entries].
    intros (h1 & out1 & out2 & H1 & H2 & _)%bind_inv_ok.
    refine (IH h1 m out2 _ H2).
    revert H1. unfold load_entry. destruct (float w value) as [x|e].
    + intros [= <- _]. apply map_Forall_insert_2; [apply Hidem | exact Hwf].
    + destruct (is_type_or_value_error e); [|discriminate].
      now intros [= <- _].
Qed.

Lemma load_highs_well_formed w path m out :
  upper_idempotent w ->
  load_highs w path = (Ok m, out) ->
  well_formed w m.
Proof.
  intros Hidem. destruct path as [| |[| | | | | |raw]]; try discriminate.
  - intros [= <- _]. apply map_Forall_empty.
  - now apply load_entries_well_formed, map_Forall_empty.
Qed.

(** The table written by [save_highs] and read by [load_highs]. *)
Lemma load_saved w (m : gmap string PrimFloat.float) :
  well_formed w m -> load_highs w (Json (save_highs m)) = (Ok m, []).
Proof.
  intros Hwf.
  assert (Hkeys : Forall (fun p => str_upper w p.1 = p.1) (ordered m)).
  { rewrite ordered_Permutation. apply Forall_forall. intros [k x] Hin.
    apply elem_of_map_to_list in Hin. exact (Hwf k x Hin). }
  rewrite save_highs_ordered, load_highs_spec by apply float_items_no_overflow.
  rewrite float_items_warnings, float_items_converted by exact Hkeys.
  f_equal. f_equal. rewrite <- (list_to_map_to_list m) at 2.
  symmetry. apply list_to_map_proper.
  - apply NoDup_fst_map_to_list.
  - now rewrite reverse_Permutation, ordered_Permutation.
Qed.

(** X5. Whatever the highs file holds, everything [load_highs] printed is
    a warning about an entry of the file, and, [str.upper] being
    idempotent, a table that [load_highs] returns has all its keys in upper
    case. *)
Theorem load_highs_returns_upper_keys (w : world) (path : file)
    (m : gmap string PrimFloat.float) (out : list event) :
  upper_idempotent w ->
  load_highs w path = (Ok m, out) ->
  (forall k x, m !! k = Some x -> str_upper w k = k)
  /\ Forall is_warning out.
Proof.
  intros Hidem Hload. split.
  - exact (load_highs_well_formed _ _ _ _ Hidem Hload).
  - pose proof (load_highs_only_warns w path) as H. now rewrite Hload in H.
Qed.

Lemma load_highs_returns_upper_keys_witness :
  let w := Sample.at_threshold in
  let path := Json (PDict [("aapl", PInt 100); ("Msft", PStr "x")]) in
  exists m,
    load_highs w path = (Ok m, [Print (BadHighWarning "Msft" (PStr "x"))])
    /\ m !! "AAPL" = Some 100%float
    /\ str_upper w "AAPL" = "AAPL".
Proof.
  cbn zeta.
  destruct (load_highs Sample.at_threshold
              (Json (PDict [("aapl", PInt 100); ("Msft", PStr "x")])))
    as [[m|e] out] eqn:Hload; [|vm_compute in Hload; discriminate].
  assert (Hm : (Ok m, out)
               = (Ok ({[ "AAPL" := 100%float ]} : gmap string PrimFloat.float),
                  [Print (BadHighWarning "Msft" (PStr "x"))])).
  { rewrite <- Hload. vm_compute. reflexivity. }
  injection Hm as -> ->. exists {[ "AAPL" := 100%float ]}.
  split; [reflexivity|]. split; [reflexivity|].
  exact (proj1 (load_highs_returns_upper_keys _ _ _ _
                  SampleFacts.at_threshold_idempotent Hload)
           "AAPL" 100%float eq_refl).
Defined.

(** X6. A table that was loaded is saved and loaded again unchanged and
    without a warning: whatever the first file held, and [str.upper] being
    idempotent, the file that [save_highs] writes for the loaded table
    reads back as that table. *)
Theorem load_save_load (w : world) (path : file)
    (m : gmap string PrimFloat.float) (out : list event) :
  upper_idempotent w ->
  load_highs w path = (Ok m, out) ->
  load_highs w (Json (save_highs m)) = (Ok m, []).
Proof.
  intros Hidem Hload. apply load_saved.
  exact (load_highs_well_formed _ _ _ _ Hidem Hload).
Qed.

Lemma load_save_load_witness :
  let w := Sample.at_threshold in
  let path := Json (PDict [("aapl", PInt 100); ("Msft", PStr "x")]) in
  exists m out,
    load_highs w path = (Ok m, out)
    /\ save_highs m = PDict [("AAPL", PFloat 100)]
    /\ load_highs w (Json (save_highs m)) = (Ok m, []).
Proof.
  cbn zeta.
  destruct (load_highs Sample.at_threshold
              (Json (PDict [("aapl", PInt 100); ("Msft", PStr "x")])))
    as [[m|e] out] eqn:Hload; [|vm_compute in Hload; discriminate].
  exists m, out. split; [reflexivity|]. split.
  - assert (Hm : Ok m
                 = Ok ({[ "AAPL" := 100%float ]} : gmap string PrimFloat.float)).
    { apply (f_equal fst) in Hload. cbn in Hload. rewrite <- Hload.
      vm_compute. reflexivity. }
    injection Hm as ->. vm_compute. reflexivity.
  - exact (load_save_load _ _ _ _ SampleFacts.at_threshold_idempotent Hload).
Defined.

(** In a table built by assigning the pairs of [l] from left to right, a
    key holds the value of its last pair. *)
Lemma lookup_last_assignment (l : list (string * PrimFloat.float))
    (K : string) (x : PrimFloat.float) :
  (list_to_map (reverse l) : gmap string PrimFloat.float) !! K = Some x
  <-> exists l1 l2, l = l1 ++ (K, x) :: l2 /\ K ∉ l2.*1.
Proof.
  induction l as [|[k v] l IH] using rev_ind.
  - rewrite reverse_nil, list_to_map_nil, lookup_empty. split; [discriminate|].
    intros (l1 & l2 & Heq & _). now destruct l1.
  - rewrite reverse_snoc, list_to_map_cons.
    destruct (decide (k = K)) as [->|Hne].
    + rewrite lookup_insert_eq. split.
      * intros [= ->]. exists l, []. split; [reflexivity | apply not_elem_of_nil].
      * intros (l1 & l2 & Heq & Hnotin).
        destruct l2 as [|b l2 _] using rev_ind.
        -- apply app_inj_tail in Heq as [_ [= ->]]. reflexivity.
        -- rewrite app_comm_cons, app_assoc in Heq.
           apply app_inj_tail in Heq as [_ <-].
           exfalso. apply Hnotin. rewrite fmap_app. apply elem_of_app. right.
           apply elem_of_cons. now left.
    + rewrite lookup_insert_ne by exact Hne. rewrite IH. split.
      * intros (l1 & l2 & -> & Hnotin). exists l1, (l2 ++ [(k, v)]).
        split; [now rewrite <- app_assoc|].
        rewrite fmap_app. intros [Hin|Hin]%elem_of_app; [now apply Hnotin|].
        apply elem_of_cons in Hin as [->|Hin]; [now apply Hne|].
        now apply not_elem_of_nil in Hin.
      * intros (l1 & l2 & Heq & Hnotin).
        destruct l2 as [|b l2 _] using rev_ind.
        -- apply app_inj_tail in Heq as [_ [= -> _]]. now destruct Hne.
        -- rewrite app_comm_cons, app_assoc in Heq.
           apply app_inj_tail in Heq as [-> <-].
           exists l1, l2. split; [reflexivity|].
           intros Hin. apply Hnotin. rewrite fmap_app. apply elem_of_app.
           now left.
Qed.

(** X7. For a highs object none of whose values is an integer too large
    for a float: [load_highs] prints one warning per entry that [float]
    refuses, in the order of the file, and the high it loads for a key is
    the value of the last convertible entry whose key, put in upper case,
    is that key. So of two entries that differ only in the case of their
    keys the later one wins. *)
Theorem load_highs_last_entry_wins (w : world)
    (raw : list (string * pyval)) :
  no_overflow w raw ->
  exists m,
    load_highs w (Json (PDict raw)) = (Ok m, warnings w raw)
    /\ forall K x,
         m !! K = Some x
         <-> exists l1 l2,
               converted w raw = l1 ++ (K, x) :: l2 /\ K ∉ l2.*1.
Proof.
  intros Hno. exists (list_to_map (reverse (converted w raw))).
  split; [now apply load_highs_spec|].
  intros K x. apply lookup_last_assignment.
Qed.

Lemma load_highs_last_entry_wins_witness :
  let raw := [("aapl", PInt 1); ("bad", PNone); ("AAPL", PInt 2)] in
  no_overflow Sample.at_threshold raw
  /\ load_highs Sample.at_threshold (Json (PDict raw))
     = (Ok {[ "AAPL" := 2%float ]}, [Print (BadHighWarning "bad" PNone)]).
Proof.
  cbn zeta.
  assert (Hno : no_overflow Sample.at_threshold
                  [("aapl", PInt 1); ("bad", PNone); ("AAPL", PInt 2)]).
  { unfold no_overflow. repeat (apply List.Forall_cons; [|]);
      try apply List.Forall_nil; intros e; vm_compute; intros [= <-];
      reflexivity. }
  split; [exact Hno|].
  destruct (load_highs_last_entry_wins Sample.at_threshold _ Hno)
    as (m & -> & Hm).
  f_equal. f_equal. apply map_eq. intros K.
  apply option_eq. intros x. rewrite Hm.
  rewrite <- (lookup_last_assignment [("AAPL", 1%float); ("AAPL", 2%float)]).
  reflexivity.
Defined.

(** ** What the loop does to the table *)

Lemma turn_effect_frame w i ticker st st' t :
  turn_effect w i ticker st st' -> t <> ticker ->
  highs st' !! t = highs st !! t.
Proof.
  intros [->|(price & _ & -> & _)] Hne; [reflexivity|].
  cbn. now rewrite lookup_insert_ne by congruence.
Qed.

Lemma for_tickers_frame w dp df token chat_id tickers t :
  t ∉ tickers ->
  forall i st st' out,
    for_tickers w dp df token chat_id i tickers st = (Ok st', out) ->
    highs st' !! t = highs st !! t.
Proof.
  induction tickers as [|ticker rest IH]; intros Hnotin i st st' out.
  - now intros [= <- _].
  - rewrite for_tickers_cons.
    intros (st1 & out1 & out2 & H1 & H2 & _)%bind_inv_ok.
    apply not_elem_of_cons in Hnotin as [Hne Hrest].
    rewrite (IH Hrest _ _ _ _ H2).
    eapply turn_effect_frame; [eapply loop_body_effect, H1 | exact Hne].
Qed.

(** X8. The loop touches only the tickers of the configuration: the entry
    of any other ticker is the same after the loop as before it. No entry
    is ever removed, and a ticker that has an entry after the loop had one
    before or is configured. *)
Theorem loop_keeps_other_tickers (w : world)
    (drop_percent drop_factor : PrimFloat.float)
    (token chat_id : option string) (i : nat) (tickers : list string)
    (st st' : locals) (out : list event) :
  for_tickers w drop_percent drop_factor token chat_id i tickers st
    = (Ok st', out) ->
  (forall t, t ∉ tickers -> highs st' !! t = highs st !! t)
  /\ (forall t, is_Some (highs st !! t) -> is_Some (highs st' !! t))
  /\ (forall t, is_Some (highs st' !! t) ->
                is_Some (highs st !! t) \/ t ∈ tickers).
Proof.
  intros Hrun. split; [|split].
  - intros t Hnotin. eapply for_tickers_frame; eassumption.
  - intros t [x Hx].
    destruct (for_tickers_le _ _ _ _ _ _ _ _ _ _ Hrun t x Hx) as (y & Hy & _).
    now exists y.
  - intros t Hsome. destruct (decide (t ∈ tickers)) as [Hin|Hnotin];
      [now right | left].
    now rewrite <- (for_tickers_frame _ _ _ _ _ _ _ Hnotin _ _ _ _ Hrun).
Qed.

Lemma loop_keeps_other_tickers_witness :
  let st := Locals {[ "AAA" := 100%float; "OLD" := 5%float ]} false in
  exists st' out,
    for_tickers Sample.telegram_up 20 (1 - 20 / 100) None None 0
      ["AAA"; "BBB"] st = (Ok st', out)
    /\ highs st' !! "OLD" = Some 5%float.
Proof.
  cbn zeta.
  destruct (for_tickers Sample.telegram_up 20 (1 - 20 / 100) None None 0
              ["AAA"; "BBB"]
              (Locals {[ "AAA" := 100%float; "OLD" := 5%float ]} false))
    as [[st'|e] out] eqn:Hrun; [|vm_compute in Hrun; discriminate].
  exists st', out. split; [reflexivity|].
  rewrite (proj1 (loop_keeps_other_tickers _ _ _ _ _ _ _ _ _ _ Hrun) "OLD");
    [reflexivity|].
  intros Hin. repeat (apply elem_of_cons in Hin as [Hin|Hin];
                      [discriminate Hin|]).
  now apply not_elem_of_nil in Hin.
Defined.

(** After a turn for which the fetch gave [price], the ticker has a high
    and that high is not below the price. *)
Lemma loop_body_covers_price w dp df token chat_id i ticker st st' out price :
  loop_body w dp df token chat_id i ticker st = (Ok st', out) ->
  fetch_price w i ticker = Ok price ->
  exists h, highs st' !! ticker = Some h /\ (h <? price)%float = false.
Proof.
  intros Hbody Hfetch. revert Hbody.
  destruct (loop_body_turn w dp df token chat_id i ticker st) as
    [exc Hf|p Hf Hh|p high Hf Hh Hlt|p high Hf Hh Hlt Hle|p high Hf Hh Hlt Hle];
    try congruence;
    assert (p = price) as -> by congruence.
  - intros [= <- _]. exists price. cbn. rewrite lookup_insert_eq.
    split; [reflexivity | apply PyFloatFacts.ltb_irrefl].
  - intros [= <- _]. exists price. cbn. rewrite lookup_insert_eq.
    split; [reflexivity | apply PyFloatFacts.ltb_irrefl].
  - intros ->%alert_branch_state. eauto.
  - intros [= <- _]. eauto.
Qed.

Lemma high_le_not_below x y p :
  high_le x y -> (x <? p)%float = false -> (y <? p)%float = false.
Proof.
  intros [->|Hxy] Hxp; [exact Hxp|].
  apply not_true_is_false. intros Hyp.
  rewrite (PyFloatFacts.ltb_trans _ _ _ Hxy Hyp) in Hxp. discriminate.
Qed.

(** X9. The table holds high-water marks: after a loop that returns, every
    configured ticker whose fetch succeeded has a high, and that high is
    not below the price fetched for it (at any of its positions in the
    list). *)
Theorem high_covers_every_fetched_price (w : world)
    (drop_percent drop_factor : PrimFloat.float)
    (token chat_id : option string) (tickers : list string) :
  forall (i : nat) (st st' : locals) (out : list event)
         (j : nat) (t : string) (price : PrimFloat.float),
    for_tickers w drop_percent drop_factor token chat_id i tickers st
      = (Ok st', out) ->
    tickers !! j = Some t ->
    fetch_price w (i + j) t = Ok price ->
    exists y, highs st' !! t = Some y /\ (y <? price)%float = false.
Proof.
  induction tickers as [|ticker rest IH]; intros i st st' out j t price;
    [intros _ Hj; discriminate Hj|].
  rewrite for_tickers_cons.
  intros (st1 & out1 & out2 & H1 & H2 & _)%bind_inv_ok Hj Hfetch.
  destruct j as [|j].
  - injection Hj as ->. rewrite Nat.add_0_r in Hfetch.
    destruct (loop_body_covers_price _ _ _ _ _ _ _ _ _ _ _ H1 Hfetch)
      as (h & Hh & Hhp).
    destruct (for_tickers_le _ _ _ _ _ _ _ _ _ _ H2 t h Hh) as (y & Hy & Hle).
    exists y. split; [exact Hy | eapply high_le_not_below; eassumption].
  - apply (IH (S i) st1 st' out2 j t price H2 Hj).
    now replace (S i + j) with (i + S j) by lia.
Qed.

Lemma high_covers_every_fetched_price_witness :
  let st := Locals {[ "AAA" := 100%float; "CCC" := 50%float ]} false in
  exists st' out y,
    for_tickers Sample.telegram_up 20 (1 - 20 / 100) None None 0
      ["AAA"; "BBB"; "CCC"] st = (Ok st', out)
    /\ fetch_price Sample.telegram_up 2 "CCC" = Ok 30%float
    /\ highs st' !! "CCC" = Some y /\ (y <? 30)%float = false.
Proof.
  cbn zeta.
  destruct (for_tickers Sample.telegram_up 20 (1 - 20 / 100) None None 0
              ["AAA"; "BBB"; "CCC"]
              (Locals {[ "AAA" := 100%float; "CCC" := 50%float ]} false))
    as [[st'|e] out] eqn:Hrun; [|vm_compute in Hrun; discriminate].
  destruct (high_covers_every_fetched_price _ _ _ _ _ _ _ _ _ _ 2 "CCC"
              30%float Hrun eq_refl eq_refl) as (y & Hy & Hlt).
  exists st', out, y. repeat split; assumption || reflexivity.
Defined.

(** ** Sending, and what can stop the loop *)

(** A request was posted to Telegram. *)
Definition is_post (e : event) : bool :=
  match e with
  | Post _ _ _ => true
  | _ => false
  end.

(** Both the token and the chat id are there and not empty. *)
Definition configured (token chat_id : option string) : bool :=
  opt_truthy token && opt_truthy chat_id.

(** The address that [send_telegram_message] posts to. *)
Definition send_url (token : option string) : string :=
  "https://api.telegram.org/bot" +:+ default "" token +:+ "/sendMessage".

(** The three ways [send_telegram_message] can go. *)
Lemma send_cases w i token chat_id text :
  let r := send_telegram_message w i token chat_id text in
  let posted := Post (send_url token) (default "" chat_id) text in
  let answer := requests_post w i (send_url token) (default "" chat_id) text in
  (configured token chat_id = false
   /\ r = (Ok false, [Print TelegramNotConfigured]))
  \/ (configured token chat_id = true
      /\ exists resp,
           answer = Ok resp
           /\ r = (Ok (Response.ok resp),
                   posted :: if Response.ok resp then []
                             else [Print (TelegramError
                                            (Response.status_code resp)
                                            (Response.text resp))]))
  \/ (configured token chat_id = true
      /\ exists e, answer = Raise e /\ r = (Raise e, [posted])).
Proof.
  cbn zeta. unfold send_telegram_message, configured, post, send_url.
  destruct (opt_truthy token), (opt_truthy chat_id); cbn [negb orb andb];
    try (left; split; reflexivity).
  right.
  destruct (requests_post w i _ _ text) as [resp|e] eqn:Hpost.
  - left. split; [reflexivity|]. exists resp. split; [reflexivity|].
    destruct resp as [[] code body]; reflexivity.
  - right. split; [reflexivity|]. exists e. split; reflexivity.
Qed.

(** X10. [send_telegram_message] posts nothing and answers [False] when the
    token or the chat id is missing or empty; otherwise it posts exactly
    once, to the address built from the token. It answers [True] exactly
    when that request returned a response that is [ok], and it raises
    exactly when that request raised, with the same exception. *)
Theorem send_telegram_message_outcome (w : world) (i : nat)
    (token chat_id : option string) (text : message) :
  let r := send_telegram_message w i token chat_id text in
  let posted := Post (send_url token) (default "" chat_id) text in
  let answer := requests_post w i (send_url token) (default "" chat_id) text in
  (configured token chat_id = false ->
     r = (Ok false, [Print TelegramNotConfigured]))
  /\ (configured token chat_id = true ->
        exists rest, r.2 = posted :: rest /\ existsb is_post rest = false)
  /\ (r.1 = Ok true <->
        configured token chat_id = true
        /\ exists resp, answer = Ok resp /\ Response.ok resp = true)
  /\ (forall e, r.1 = Raise e <->
                configured token chat_id = true /\ answer = Raise e).
Proof.
  cbn zeta.
  destruct (send_cases w i token chat_id text)
    as [[Hc ->]|[(Hc & resp & Ha & ->)|(Hc & e & Ha & ->)]];
    rewrite Hc, ?Ha; cbn [fst snd].
  - split; [reflexivity|]. split; [discriminate|].
    split; [|intros e']; (split; [discriminate | intros [[=] _]]).
  - split; [discriminate|]. split.
    { intros _. eexists. split; [reflexivity|].
      now destruct (Response.ok resp). }
    split.
    + split.
      * intros [= Hok]. split; [reflexivity|]. now exists resp.
      * intros (_ & resp' & [= <-] & ->). reflexivity.
    + intros e'. split; [discriminate | intros [_ [=]]].
  - split; [discriminate|]. split.
    { intros _. now exists []. }
    split.
    + split; [discriminate | intros (_ & resp & [=] & _)].
    + intros e'. split.
      * intros [= ->]. auto.
      * intros [_ [= ->]]. reflexivity.
Qed.

(** A turn of the loop raises only through the request to Telegram. *)
Lemma loop_body_raise w dp df token chat_id i ticker st e :
  (loop_body w dp df token chat_id i ticker st).1 = Raise e ->
  configured token chat_id = true
  /\ exists text,
       requests_post w i (send_url token) (default "" chat_id) text = Raise e
       /\ (loop_body w dp df token chat_id i ticker st).2
          = [Post (send_url token) (default "" chat_id) text].
Proof.
  destruct (loop_body_turn w dp df token chat_id i ticker st) as
    [exc Hf|p Hf Hh|p high Hf Hh Hlt|p high Hf Hh Hlt Hle|p high Hf Hh Hlt Hle];
    try discriminate.
  destruct (send_cases w i token chat_id (Message ticker dp p high))
    as [[Hc ->]|[(Hc & resp & Ha & ->)|(Hc & e' & Ha & ->)]];
    try discriminate.
  cbn. intros [= ->]. split; [exact Hc|]. eauto.
Qed.

(** X11. The loop stops with an exception only when Telegram is configured
    and the request for an alert raised: the exception is the one of
    [requests.post], for the ticker at some position of the list, and that
    request is the last thing the loop did. A failing price fetch never
    stops the loop. *)
Theorem loop_raises_only_from_post (w : world)
    (drop_percent drop_factor : PrimFloat.float)
    (token chat_id : option string) (tickers : list string) :
  forall (i : nat) (st : locals) (e : exn),
    let run :=
      for_tickers w drop_percent drop_factor token chat_id i tickers st in
    run.1 = Raise e ->
    configured token chat_id = true
    /\ exists j text,
         i <= j < i + length tickers
         /\ requests_post w j (send_url token) (default "" chat_id) text
            = Raise e
         /\ last run.2 = Some (Post (send_url token) (default "" chat_id) text).
Proof.
  induction tickers as [|ticker rest IH]; intros i st e; cbn zeta;
    [discriminate|].
  rewrite for_tickers_cons.
  destruct (loop_body w drop_percent drop_factor token chat_id i ticker st)
    as [[st1|e1] out1] eqn:Hbody.
  - rewrite bind_ok. cbn [fst snd]. intros Hrest.
    destruct (IH (S i) st1 e Hrest) as (Hc & j & text & Hj & Hpost & Hlast).
    split; [exact Hc|]. exists j, text. cbn [length].
    split; [lia|]. split; [exact Hpost|].
    now rewrite last_app, Hlast.
  - rewrite bind_raise. cbn [fst snd]. intros [= ->].
    pose proof (loop_body_raise w drop_percent drop_factor token chat_id
                  i ticker st e) as Hraise.
    rewrite Hbody in Hraise. cbn [fst snd] in Hraise.
    destruct (Hraise eq_refl) as (Hc & text & Hpost & ->).
    split; [exact Hc|]. exists i, text. cbn [length].
    split; [lia|]. split; [exact Hpost | reflexivity].
Qed.

Lemma loop_raises_only_from_post_witness :
  let w := Sample.telegram_down in
  let run := for_tickers w 20 (1 - 20 / 100) (Some "TOKEN") (Some "42") 0
               ["AAA"; "BBB"; "CCC"]
               (Locals {[ "AAA" := 100%float; "CCC" := 50%float ]} false) in
  run.1 = Raise (Exception "ConnectionError")
  /\ exists j text,
       requests_post w j (send_url (Some "TOKEN")) "42" text
       = Raise (Exception "ConnectionError").
Proof.
  cbn zeta.
  assert (Hrun : (for_tickers Sample.telegram_down 20 (1 - 20 / 100)
                    (Some "TOKEN") (Some "42") 0 ["AAA"; "BBB"; "CCC"]
                    (Locals {[ "AAA" := 100%float; "CCC" := 50%float ]}
                       false)).1
                 = Raise (Exception "ConnectionError"))
    by (vm_compute; reflexivity).
  split; [exact Hrun|].
  destruct (loop_raises_only_from_post _ _ _ _ _ _ _ _ _ Hrun)
    as (_ & j & text & _ & Hpost & _).
  now exists j, text.
Defined.

(** Without a token or a chat id a turn of the loop returns and posts
    nothing. *)
Lemma loop_body_unconfigured w dp df token chat_id i ticker st :
  configured token chat_id = false ->
  exists st',
    (loop_body w dp df token chat_id i ticker st).1 = Ok st'
    /\ existsb is_post (loop_body w dp df token chat_id i ticker st).2 = false.
Proof.
  intros Hc.
  destruct (loop_body_turn w dp df token chat_id i ticker st) as
    [exc Hf|p Hf Hh|p high Hf Hh Hlt|p high Hf Hh Hlt Hle|p high Hf Hh Hlt Hle];
    try (eexists; split; reflexivity).
  destruct (send_cases w i token chat_id (Message ticker dp p high))
    as [[_ ->]|[(Hc' & _)|(Hc' & _)]]; try congruence.
  eexists; split; reflexivity.
Qed.

Lemma for_tickers_unconfigured w dp df token chat_id tickers :
  configured token chat_id = false ->
  forall i st,
    exists st',
      (for_tickers w dp df token chat_id i tickers st).1 = Ok st'
      /\ existsb is_post (for_tickers w dp df token chat_id i tickers st).2
         = false.
Proof.
  intros Hc. induction tickers as [|ticker rest IH]; intros i st.
  - exists st. split; reflexivity.
  - rewrite for_tickers_cons.
    destruct (loop_body_unconfigured w dp df token chat_id i ticker st Hc)
      as (st1 & H1 & P1).
    destruct (loop_body w dp df token chat_id i ticker st) as [r1 out1].
    cbn in H1, P1. subst r1. rewrite bind_ok.
    destruct (IH (S i) st1) as (st' & H2 & P2).
    exists st'. cbn [fst snd]. split; [exact H2|].
    now rewrite existsb_app, P1, P2.
Qed.

Lemma warnings_no_post (out : list event) :
  Forall is_warning out -> existsb is_post out = false.
Proof.
  induction 1 as [|e out (key & value & ->) _ IH]; [reflexivity | exact IH].
Qed.

(** X12. When the configuration and the highs load and the token or the
    chat id is missing from the environment, the run ends normally and
    posts nothing: alerts are only printed, and the highs are still
    tracked and saved. *)
Theorem run_without_telegram (w : world) (tickers : list string)
    (drop_percent : PrimFloat.float) (highs0 : gmap string PrimFloat.float)
    (outh : list event) :
  load_config w (config_json w) = Ok (tickers, drop_percent) ->
  load_highs w (highs_json w) = (Ok highs0, outh) ->
  configured (getenv w "TELEGRAM_BOT_TOKEN") (getenv w "TELEGRAM_CHAT_ID")
    = false ->
  (main w).1 = Ok tt
  /\ existsb is_post (main w).2 = false
  /\ exists st outl,
       for_tickers w drop_percent (1 - drop_percent / 100)
         (getenv w "TELEGRAM_BOT_TOKEN") (getenv w "TELEGRAM_CHAT_ID")
         0 tickers (Locals highs0 false) = (Ok st, outl)
       /\ (main w).2 = outh ++ outl ++ (finish st).2.
Proof.
  intros Hcfg Hload Hc.
  destruct (for_tickers_unconfigured w drop_percent (1 - drop_percent / 100)
              _ _ tickers Hc 0 (Locals highs0 false)) as (st & Hst & Hpost).
  destruct (for_tickers w drop_percent (1 - drop_percent / 100)
              (getenv w "TELEGRAM_BOT_TOKEN") (getenv w "TELEGRAM_CHAT_ID")
              0 tickers (Locals highs0 false)) as [r outl] eqn:Hloop.
  cbn in Hst, Hpost. subst r.
  rewrite (main_completed _ _ _ _ _ _ _ Hcfg Hload Hloop). cbn [fst snd].
  split; [reflexivity|]. split; [|eauto].
  rewrite !existsb_app, Hpost.
  assert (Hwarn : Forall is_warning outh).
  { pose proof (load_highs_only_warns w (highs_json w)) as H.
    now rewrite Hload in H. }
  rewrite (warnings_no_post outh Hwarn).
  unfold finish. now destruct (updated_highs st).
Qed.

Lemma run_without_telegram_witness :
  let w := Sample.at_threshold in
  load_config w (config_json w) = Ok (["AAA"], 20%float)
  /\ main w = (Ok tt, [Print TelegramNotConfigured;
                       Print (AlertSent "AAA" 80 100);
                       Print NoHighUpdates])
  /\ existsb is_post (main w).2 = false.
Proof.
  cbn zeta.
  assert (Hcfg : load_config Sample.at_threshold
                   (config_json Sample.at_threshold) = Ok (["AAA"], 20%float))
    by (vm_compute; reflexivity).
  assert (Hload : load_highs Sample.at_threshold
                    (highs_json Sample.at_threshold)
                  = (Ok {[ "AAA" := 100%float ]}, []))
    by (vm_compute; reflexivity).
  split; [exact Hcfg|]. split; [vm_compute; reflexivity|].
  exact (proj1 (proj2 (run_without_telegram Sample.at_threshold _ _ _ _
                         Hcfg Hload eq_refl))).
Defined.

(** ** The run as a whole *)

Lemma warnings_no_write (out : list event) :
  Forall is_warning out -> wrote out = false.
Proof.
  induction 1 as [|e out (key & value & ->) _ IH]; [reflexivity | exact IH].
Qed.

(** The shape of a run: it stops at the configuration, at the highs, in
    the loop, or it reaches [finish]. *)
Lemma main_cases w :
  (exists e, load_config w (config_json w) = Raise e /\ main w = (Raise e, []))
  \/ exists tickers dp,
       load_config w (config_json w) = Ok (tickers, dp)
       /\ ((exists e outh,
              load_highs w (highs_json w) = (Raise e, outh)
              /\ main w = (Raise e, outh))
           \/ exists highs0 outh,
                load_highs w (highs_json w) = (Ok highs0, outh)
                /\ let run :=
                     for_tickers w dp (1 - dp / 100)
                       (getenv w "TELEGRAM_BOT_TOKEN")
                       (getenv w "TELEGRAM_CHAT_ID") 0 tickers
                       (Locals highs0 false) in
                   (exists e outl,
                      run = (Raise e, outl) /\ main w = (Raise e, outh ++ outl))
                   \/ exists st outl,
                        run = (Ok st, outl)
                        /\ main w = (Ok tt, outh ++ outl ++ (finish st).2)).
Proof.
  destruct (load_config w (config_json w)) as [[tickers dp]|e] eqn:Hcfg.
  - right. exists tickers, dp. split; [reflexivity|].
    destruct (load_highs w (highs_json w)) as [[highs0|e] outh] eqn:Hload.
    + right. exists highs0, outh. split; [reflexivity|]. cbn zeta.
      destruct (for_tickers w dp (1 - dp / 100) _ _ 0 tickers
                  (Locals highs0 false)) as [[st|e] outl] eqn:Hloop.
      * right. exists st, outl. split; [reflexivity|].
        exact (main_completed _ _ _ _ _ _ _ Hcfg Hload Hloop).
      * left. exists e, outl. split; [reflexivity|].
        unfold main, lift. rewrite Hcfg, bind_ok. cbn [app].
        now rewrite Hload, bind_ok, Hloop, bind_raise.
    + left. exists e, outh. split; [reflexivity|].
      unfold main, lift. rewrite Hcfg, bind_ok. cbn [app].
      now rewrite Hload, bind_raise.
  - left. exists e. split; [reflexivity|]. unfold main, lift. now rewrite Hcfg.
Qed.

(** X13. The highs file is written by no run that ends with an exception.
    A run that writes it ends normally, writes it once, and the write and
    the "Saved highs" line are the last two things it does. *)
Theorem write_only_at_normal_end (w : world) :
  wrote (main w).2 = true ->
  (main w).1 = Ok tt
  /\ exists before content,
       (main w).2 = before ++ [WriteHighs content; Print SavedHighs]
       /\ wrote before = false.
Proof.
  destruct (main_cases w) as
    [(e & _ & ->)
    |(tickers & dp & Hcfg &
      [(e & outh & Hload & ->)
      |(highs0 & outh & Hload &
        [(e & outl & Hloop & ->)|(st & outl & Hloop & ->)])])];
    cbn [fst snd].
  - discriminate.
  - rewrite warnings_no_write; [discriminate|].
    pose proof (load_highs_only_warns w (highs_json w)) as H.
    now rewrite Hload in H.
  - pose proof (load_highs_no_write w (highs_json w)) as H1.
    pose proof (for_tickers_no_write w dp (1 - dp / 100)
                  (getenv w "TELEGRAM_BOT_TOKEN") (getenv w "TELEGRAM_CHAT_ID")
                  tickers 0 (Locals highs0 false)) as H2.
    rewrite Hload in H1. rewrite Hloop in H2. unfold wrote in *.
    cbn [snd] in H1, H2. rewrite existsb_app, H1, H2. discriminate.
  - pose proof (load_highs_no_write w (highs_json w)) as H1.
    pose proof (for_tickers_no_write w dp (1 - dp / 100)
                  (getenv w "TELEGRAM_BOT_TOKEN") (getenv w "TELEGRAM_CHAT_ID")
                  tickers 0 (Locals highs0 false)) as H2.
    rewrite Hload in H1. rewrite Hloop in H2. unfold wrote in *.
    cbn [snd] in H1, H2. unfold finish.
    destruct (updated_highs st).
    + intros _. split; [reflexivity|].
      exists (outh ++ outl), (save_highs (highs st)).
      split; [now rewrite app_assoc|]. now rewrite existsb_app, H1, H2.
    + rewrite !existsb_app, H1, H2. discriminate.
Qed.

Lemma write_only_at_normal_end_witness :
  wrote (main Sample.telegram_up).2 = true
  /\ (main Sample.telegram_up).1 = Ok tt.
Proof.
  assert (H : wrote (main Sample.telegram_up).2 = true)
    by (vm_compute; reflexivity).
  split; [exact H | exact (proj1 (write_only_at_normal_end _ H))].
Defined.

(** X14. A run that cannot load its configuration or its highs ends with
    the exception of the load and handles no ticker: it prints nothing at
    all in the first case and only warnings about the highs file in the
    second. *)
Theorem failed_load_stops_run (w : world) (e : exn) :
  (load_config w (config_json w) = Raise e -> main w = (Raise e, []))
  /\ (forall tickers dp outh,
        load_config w (config_json w) = Ok (tickers, dp) ->
        load_highs w (highs_json w) = (Raise e, outh) ->
        main w = (Raise e, outh) /\ Forall is_warning outh).
Proof.
  split.
  - intros Hcfg. unfold main, lift. now rewrite Hcfg.
  - intros tickers dp outh Hcfg Hload. split.
    + unfold main, lift. rewrite Hcfg, bind_ok. cbn [app].
      now rewrite Hload, bind_raise.
    + pose proof (load_highs_only_warns w (highs_json w)) as H.
      now rewrite Hload in H.
Qed.

Lemma failed_load_stops_run_witness :
  let w := World Sample.parse Sample.strip Sample.upper Sample.chars
                    (Sample.config ["AAA"] 150) Absent
             Sample.telegram_env (fun _ _ => Sample.quoted 1) Sample.accepted in
  load_config w (config_json w)
    = Raise (ValueError "'drop_percent' must be between 0 and 100.")
  /\ main w
     = (Raise (ValueError "'drop_percent' must be between 0 and 100."), []).
Proof.
  split; [reflexivity|].
  exact (proj1 (failed_load_stops_run
                  (World Sample.parse Sample.strip Sample.upper Sample.chars
                    (Sample.config ["AAA"] 150) Absent
                     Sample.telegram_env (fun _ _ => Sample.quoted 1)
                     Sample.accepted) _) eq_refl).
Defined.

(** ** A high that is not a number *)

Module NaNFacts.

Lemma is_nan_spec (x : PrimFloat.float) :
  is_nan x = true -> Prim2SF x = S754_nan.
Proof.
  unfold is_nan. rewrite FloatAxioms.eqb_spec. unfold SFeqb, SFcompare.
  destruct (Prim2SF x) as [s|s| |s m e]; try (destruct s; discriminate);
    try discriminate; [reflexivity|].
  rewrite Z.compare_refl, Pos.compare_cont_refl. destruct s; discriminate.
Qed.

Lemma ltb_nan_l (x y : PrimFloat.float) :
  is_nan x = true -> (x <? y)%float = false.
Proof.
  intros Hx. rewrite FloatAxioms.ltb_spec, (is_nan_spec x Hx). reflexivity.
Qed.

Lemma ltb_nan_r (x y : PrimFloat.float) :
  is_nan y = true -> (x <? y)%float = false.
Proof.
  intros Hy. rewrite FloatAxioms.ltb_spec, (is_nan_spec y Hy).
  unfold SFltb, SFcompare. now destruct (Prim2SF x).
Qed.

Lemma leb_nan_l (x y : PrimFloat.float) :
  is_nan x = true -> (x <=? y)%float = false.
Proof.
  intros Hx. rewrite FloatAxioms.leb_spec, (is_nan_spec x Hx). reflexivity.
Qed.

Lemma leb_nan_r (x y : PrimFloat.float) :
  is_nan y = true -> (x <=? y)%float = false.
Proof.
  intros Hy. rewrite FloatAxioms.leb_spec, (is_nan_spec y Hy).
  unfold SFleb, SFcompare. now destruct (Prim2SF x).
Qed.

Lemma mul_nan_l (x y : PrimFloat.float) :
  is_nan x = true -> is_nan (x * y)%float = true.
Proof.
  intros Hx. unfold is_nan at 1.
  rewrite FloatAxioms.eqb_spec, FloatAxioms.mul_spec, (is_nan_spec x Hx).
  reflexivity.
Qed.

End NaNFacts.

(** X15. A high that is a NaN (loaded from the file, or set from a NaN
    price at first sight) is frozen: in every later turn for its ticker
    whose fetch succeeds the high is neither raised nor alerted on, and
    the turn only prints the price and the high. The same holds for a
    turn whose fetched price is a NaN, whatever the recorded high. *)
Theorem nan_high_is_frozen (w : world)
    (drop_percent drop_factor : PrimFloat.float)
    (token chat_id : option string) (i : nat) (ticker : string) (st : locals)
    (price high : PrimFloat.float) :
  fetch_price w i ticker = Ok price ->
  highs st !! ticker = Some high ->
  is_nan high = true \/ is_nan price = true ->
  loop_body w drop_percent drop_factor token chat_id i ticker st
  = (Ok st, [Print (PriceAndHigh ticker price high)]).
Proof.
  intros Hfetch Hhigh Hnan. unfold loop_body. rewrite Hfetch, Hhigh.
  destruct Hnan as [Hnan|Hnan].
  - rewrite (NaNFacts.ltb_nan_l _ _ Hnan).
    now rewrite (NaNFacts.leb_nan_r _ _ (NaNFacts.mul_nan_l _ drop_factor Hnan)).
  - rewrite (NaNFacts.ltb_nan_r _ _ Hnan).
    now rewrite (NaNFacts.leb_nan_l _ _ Hnan).
Qed.

Lemma nan_high_is_frozen_witness :
  let st := Locals {[ "AAA" := nan ]} false in
  fetch_price Sample.at_threshold 0 "AAA" = Ok 80%float
  /\ loop_body Sample.at_threshold 20 (1 - 20 / 100) None None 0 "AAA" st
     = (Ok st, [Print (PriceAndHigh "AAA" 80 nan)]).
Proof.
  split; [reflexivity|].
  apply (nan_high_is_frozen Sample.at_threshold 20 (1 - 20 / 100) None None 0
           "AAA" (Locals {[ "AAA" := nan ]} false) 80 nan eq_refl).
  - vm_compute. reflexivity.
  - left. reflexivity.
Defined.

(** ** No alert without cause *)

(** What an alert in the output says about the turn that made it: the
    price is not above the high and is at or below the threshold; a
    request goes to the configured address and chat and carries the
    configured drop percent. *)
Definition justified (drop_percent drop_factor : PrimFloat.float)
    (token chat_id : option string) (e : event) : Prop :=
  match e with
  | Post url chat text =>
      url = send_url token /\ chat = default "" chat_id
      /\ msg_drop_percent text = drop_percent
      /\ (msg_high text <? msg_price text)%float = false
      /\ (msg_price text <=? msg_high text * drop_factor)%float = true
  | Print (AlertSent _ price high) =>
      (high <? price)%float = false
      /\ (price <=? high * drop_factor)%float = true
  | _ => True
  end.

Lemma loop_body_justified w dp df token chat_id i ticker st :
  Forall (justified dp df token chat_id)
    (loop_body w dp df token chat_id i ticker st).2.
Proof.
  destruct (loop_body_turn w dp df token chat_id i ticker st) as
    [exc Hf|p Hf Hh|p high Hf Hh Hlt|p high Hf Hh Hlt Hle|p high Hf Hh Hlt Hle];
    try (apply List.Forall_cons; [exact I | apply List.Forall_nil]).
  destruct (send_cases w i token chat_id (Message ticker dp p high))
    as [[_ ->]|[(_ & [[] code body] & _ & ->)|(_ & e & _ & ->)]]; cbn;
    repeat (apply List.Forall_cons; [cbn; auto 6|]); apply List.Forall_nil.
Qed.

(** X16. Every alert of the loop has its cause: each request posted to
    Telegram goes to the address built from the token, with the configured
    chat id and drop percent, and its text holds a price that is not above
    the high and is at or below [high * drop_factor]; each "alert sent"
    line holds such a price and high as well. *)
Theorem every_alert_is_justified (w : world)
    (drop_percent drop_factor : PrimFloat.float)
    (token chat_id : option string) (tickers : list string) :
  forall (i : nat) (st : locals),
    Forall (justified drop_percent drop_factor token chat_id)
      (for_tickers w drop_percent drop_factor token chat_id i tickers st).2.
Proof.
  induction tickers as [|ticker rest IH]; intros i st; [apply List.Forall_nil|].
  rewrite for_tickers_cons, bind_out. apply Forall_app. split.
  - apply loop_body_justified.
  - destruct (loop_body _ _ _ _ _ _ _ _).1; [apply IH | apply List.Forall_nil].
Qed.

(** ** Where a price comes from *)

(** X17. A price that [fetch_price] returns is the fast quote of the
    provider, when that quote is truthy (not zero), or else the last
    close of the five day window: nothing else is ever returned. In
    particular a price of zero can only come from the window. *)
Theorem fetch_price_sources (w : world) (i : nat) (ticker : string)
    (price : PrimFloat.float) :
  fetch_price w i ticker = Ok price ->
  exists tk,
    yf_Ticker w i ticker = Ok tk
    /\ ((exists fi,
           fast_info_attr tk = Ok (Some fi)
           /\ get_last_price fi = Ok (Some price)
           /\ PyFloat.truthy price = true)
        \/ (exists closes,
              history tk "5d" = Ok closes /\ last closes = Some price
              /\ forall fi p,
                   fast_info_attr tk = Ok (Some fi) ->
                   get_last_price fi = Ok (Some p) ->
                   PyFloat.truthy p = false)).
Proof.
  unfold fetch_price.
  destruct (yf_Ticker w i ticker) as [tk|e]; [|discriminate].
  cbn [mbind result_bind]. intros H. exists tk. split; [reflexivity|].
  assert (Hhist : forall P : Prop,
            from_history tk = Ok price ->
            (forall closes,
               history tk "5d" = Ok closes -> last closes = Some price -> P) ->
            P).
  { intros P Hfrom HP. unfold from_history in Hfrom.
    destruct (history tk "5d") as [closes|e]; [|discriminate].
    cbn in Hfrom. destruct (last closes) as [c|] eqn:Hlast; [|discriminate].
    injection Hfrom as ->. now apply (HP closes). }
  destruct (fast_info_attr tk) as [[fi|]|e].
  - destruct (get_last_price fi) as [[p|]|e] eqn:Hget; [| |discriminate];
      cbn [mbind result_bind] in H.
    + destruct (PyFloat.truthy p) eqn:Hp.
      * injection H as ->. left. exists fi. auto.
      * apply (Hhist _ H). intros closes Hc Hl. right. exists closes.
        repeat split; try assumption. intros fi' p' [= <-] Hget'.
        rewrite Hget in Hget'. now injection Hget' as <-.
    + apply (Hhist _ H). intros closes Hc Hl. right. exists closes.
      repeat split; try assumption. intros fi' p' [= <-] Hget'.
      rewrite Hget in Hget'. discriminate.
  - apply (Hhist _ H). intros closes Hc Hl. right. exists closes.
    repeat split; try assumption. intros fi' p' [=].
  - apply (Hhist _ H). intros closes Hc Hl. right. exists closes.
    repeat split; try assumption. intros fi' p' [=].
Qed.

Lemma fetch_price_sources_witness :
  fetch_price Sample.fast_info_fails 0 "AAA" = Ok 2%float
  /\ exists tk closes,
       yf_Ticker Sample.fast_info_fails 0 "AAA" = Ok tk
       /\ history tk "5d" = Ok closes /\ last closes = Some 2%float.
Proof.
  split; [reflexivity|].
  destruct (fetch_price_sources Sample.fast_info_fails 0 "AAA" 2 eq_refl)
    as (tk & Htk & [(fi & Hfi & _)|(closes & Hc & Hl & _)]).
  - injection Htk as <-. discriminate Hfi.
  - now exists tk, closes.
Defined.

(** ** From one run to the next *)

Lemma load_config_tickers_upper w path tickers dp :
  upper_idempotent w ->
  load_config w path = Ok (tickers, dp) ->
  Forall (fun t => str_upper w t = t) tickers.
Proof.
  intros Hidem Hcfg.
  destruct (load_config_inv _ _ _ _ Hcfg) as (_ & (xs & Hxs) & _).
  exact (normalize_tickers_upper w xs Hidem _ Hxs).
Qed.

Lemma turn_effect_well_formed w i ticker st st' :
  str_upper w ticker = ticker -> well_formed w (highs st) ->
  turn_effect w i ticker st st' -> well_formed w (highs st').
Proof.
  intros Hup Hwf [->|(price & _ & -> & _)]; [exact Hwf|].
  now apply map_Forall_insert_2.
Qed.

Lemma for_tickers_well_formed w dp df token chat_id tickers :
  Forall (fun t => str_upper w t = t) tickers ->
  forall i st st' out,
    well_formed w (highs st) ->
    for_tickers w dp df token chat_id i tickers st = (Ok st', out) ->
    well_formed w (highs st').
Proof.
  induction 1 as [|ticker rest Hup _ IH]; intros i st st' out Hwf.
  - now intros [= <- _].
  - rewrite for_tickers_cons.
    intros (st1 & out1 & out2 & H1 & H2 & _)%bind_inv_ok.
    apply (IH _ _ _ _ (turn_effect_well_formed _ _ _ _ _ Hup Hwf
                         (loop_body_effect _ _ _ _ _ _ _ _ _ _ H1)) H2).
Qed.

(** X18. What a run saves, the next run loads: when the configuration and
    the highs load and the loop returns, then, [str.upper] being
    idempotent, the table the loop ends with has all its keys in upper
    case, and the file that [save_highs] writes for it is loaded by
    [load_highs], in any world with the same [str.upper], as that very
    table and without a warning. *)
Theorem saved_table_is_loaded_next_run (w w' : world)
    (tickers : list string) (drop_percent : PrimFloat.float)
    (highs0 : gmap string PrimFloat.float) (st : locals)
    (outh outl : list event) :
  upper_idempotent w ->
  (forall s, str_upper w' s = str_upper w s) ->
  load_config w (config_json w) = Ok (tickers, drop_percent) ->
  load_highs w (highs_json w) = (Ok highs0, outh) ->
  for_tickers w drop_percent (1 - drop_percent / 100)
    (getenv w "TELEGRAM_BOT_TOKEN") (getenv w "TELEGRAM_CHAT_ID")
    0 tickers (Locals highs0 false) = (Ok st, outl) ->
  (forall k x, highs st !! k = Some x -> str_upper w k = k)
  /\ load_highs w' (Json (save_highs (highs st))) = (Ok (highs st), []).
Proof.
  intros Hidem Hsame Hcfg Hload Hloop.
  assert (Hwf : well_formed w (highs st)).
  { eapply for_tickers_well_formed; [| |exact Hloop].
    - eapply load_config_tickers_upper; eassumption.
    - exact (load_highs_well_formed _ _ _ _ Hidem Hload). }
  split; [exact Hwf|]. apply load_saved.
  intros k x Hk. rewrite Hsame. exact (Hwf k x Hk).
Qed.

Lemma saved_table_is_loaded_next_run_witness :
  let w := Sample.telegram_up in
  exists st outl,
    for_tickers w 20 (1 - 20 / 100) (getenv w "TELEGRAM_BOT_TOKEN")
      (getenv w "TELEGRAM_CHAT_ID") 0 ["AAA"; "BBB"; "CCC"]
      (Locals {[ "AAA" := 100%float; "CCC" := 50%float ]} false)
    = (Ok st, outl)
    /\ load_highs Sample.at_threshold (Json (save_highs (highs st)))
       = (Ok (highs st), []).
Proof.
  cbn zeta.
  assert (Hcfg : load_config Sample.telegram_up (config_json Sample.telegram_up)
                 = Ok (["AAA"; "BBB"; "CCC"], 20%float))
    by (vm_compute; reflexivity).
  assert (Hload : load_highs Sample.telegram_up (highs_json Sample.telegram_up)
                  = (Ok {[ "AAA" := 100%float; "CCC" := 50%float ]}, []))
    by (vm_compute; reflexivity).
  destruct (for_tickers Sample.telegram_up 20 (1 - 20 / 100)
              (getenv Sample.telegram_up "TELEGRAM_BOT_TOKEN")
              (getenv Sample.telegram_up "TELEGRAM_CHAT_ID") 0
              ["AAA"; "BBB"; "CCC"]
              (Locals {[ "AAA" := 100%float; "CCC" := 50%float ]} false))
    as [[st|e] outl] eqn:Hloop; [|vm_compute in Hloop; discriminate].
  exists st, outl. split; [reflexivity|].
  exact (proj2 (saved_table_is_loaded_next_run Sample.telegram_up
                  Sample.at_threshold _ _ _ _ _ _
                  SampleFacts.telegram_up_idempotent (fun s => eq_refl)
                  Hcfg Hload Hloop)).
Defined.

(** ** One line per ticker *)

(** The ticker of a line that closes a turn of the loop. *)
Definition status_ticker (e : event) : option string :=
  match e with
  | Print (FetchFailed t _) | Print (InitialHigh t _) | Print (NewHigh t _ _)
  | Print (AlertSent t _ _) | Print (PriceAndHigh t _ _) => Some t
  | _ => None
  end.

Lemma loop_body_status w dp df token chat_id i ticker st :
  omap status_ticker (loop_body w dp df token chat_id i ticker st).2
  = match (loop_body w dp df token chat_id i ticker st).1 with
    | Ok _ => [ticker]
    | Raise _ => []
    end.
Proof.
  destruct (loop_body_turn w dp df token chat_id i ticker st) as
    [exc Hf|p Hf Hh|p high Hf Hh Hlt|p high Hf Hh Hlt Hle|p high Hf Hh Hlt Hle];
    try reflexivity.
  destruct (send_cases w i token chat_id (Message ticker dp p high))
    as [[_ ->]|[(_ & [[] code body] & _ & ->)|(_ & e & _ & ->)]]; reflexivity.
Qed.

(** X19. The loop handles the tickers in the order of the configuration
    and closes each turn with exactly one line about its ticker (fetch
    failed, initial high, new high, alert sent, or price and high): the
    tickers of these lines are a prefix of the configured list, and the
    whole list when the loop returns. *)
Theorem one_status_line_per_ticker (w : world)
    (drop_percent drop_factor : PrimFloat.float)
    (token chat_id : option string) (tickers : list string) :
  forall (i : nat) (st : locals),
    let run :=
      for_tickers w drop_percent drop_factor token chat_id i tickers st in
    omap status_ticker run.2 `prefix_of` tickers
    /\ (forall st', run.1 = Ok st' -> omap status_ticker run.2 = tickers).
Proof.
  induction tickers as [|ticker rest IH]; intros i st; cbn zeta.
  - split; [reflexivity | intros; reflexivity].
  - rewrite for_tickers_cons, bind_out, omap_app, loop_body_status.
    destruct (loop_body w drop_percent drop_factor token chat_id i ticker st)
      as [[st1|e1] out1]; cbn [fst snd].
    + rewrite bind_ok. cbn [fst snd app].
      destruct (IH (S i) st1) as [Hpre Hall]. split.
      * now apply prefix_cons.
      * intros st' Hst'. f_equal. now apply (Hall st').
    + split; [apply prefix_nil | discriminate].
Qed.

(** X20. [str.upper] being idempotent, the round trip through the file
    holds for exactly the tables whose keys [str.upper] leaves as they are:
    a table with a key that [str.upper] changes is not what [load_highs]
    reads back from the file written for it. *)
Theorem roundtrip_iff_upper_keys (w : world)
    (m : gmap string PrimFloat.float) :
  upper_idempotent w ->
  (load_highs w (Json (save_highs m)) = (Ok m, [])
   <-> forall k x, m !! k = Some x -> str_upper w k = k).
Proof.
  intros Hidem. split.
  - intros Hload. exact (load_highs_well_formed _ _ _ _ Hidem Hload).
  - intros Hwf. now apply load_saved.
Qed.

Lemma roundtrip_iff_upper_keys_witness :
  let w := Sample.at_threshold in
  let m : gmap string PrimFloat.float := {[ "aapl" := 1%float ]} in
  upper_idempotent w
  /\ load_highs w (Json (save_highs m)) = (Ok {[ "AAPL" := 1%float ]}, [])
  /\ ~ (forall k x, m !! k = Some x -> str_upper w k = k).
Proof.
  cbn zeta. split; [exact SampleFacts.at_threshold_idempotent|].
  split; [vm_compute; reflexivity|].
  intros Hwf.
  apply (roundtrip_iff_upper_keys Sample.at_threshold {[ "aapl" := 1%float ]}
           SampleFacts.at_threshold_idempotent) in Hwf.
  apply (f_equal (fun r => match r.1 with
                           | Ok t => t !! "aapl"
                           | Raise _ => None
                           end)) in Hwf.
  vm_compute in Hwf. discriminate Hwf.
Defined.
